(** * Debate-App ML backend: scoring, aggregation and debate dynamics

    A shallow embedding of [backend_ml/ml_judge.py], [backend_ml/advanced_ai.py]
    and the [/finalize] route of [backend_ml/main.py], with the properties of
    the specification stated and settled against it.

    Conventions of the embedding.
    - A Python [str] is a [string]; an [ascii] stands for a code point below
      256.  Whitespace and case mapping follow Python on that range.
    - A Python [float] is an exact rational ([Q]).  [round(x, 1)] is rounding
      to the nearest tenth, ties to the even tenth.  Values are compared with
      [==] on [Q]; [round1] returns reduced fractions, so what the program
      reports can also be compared with [=].
    - The transformer models are external: they are variables of the
      sections below and may return a value or raise.
    - A method of [DebateJudge] is a computation over the judge's
      [_initialized] flag and the log of calls made to the models. *)

From Stdlib Require Import ZArith QArith Qround Qminmax Qabs.
From Stdlib Require Import String Ascii List Bool Lia Lqa.
Import ListNotations.

Local Open Scope string_scope.
Local Open Scope Q_scope.

(* ===================================================================== *)
(** ** Python string operations used by the source *)
(* ===================================================================== *)

Module PyStr.

(** [str.isspace] on one code point below 256: TAB..CR, FS..US, space,
    NEL and NBSP. *)
Definition isspace (c : ascii) : bool :=
  let n := N_of_ascii c in
  ((9 <=? n) && (n <=? 13) || (28 <=? n) && (n <=? 32)
   || (n =? 133) || (n =? 160))%N.

(** [str.lower] on one code point below 256. *)
Definition lower_char (c : ascii) : ascii :=
  let n := N_of_ascii c in
  if ((65 <=? n) && (n <=? 90)
      || (192 <=? n) && (n <=? 222) && negb (n =? 215))%N
  then ascii_of_N (n + 32) else c.

(** [str.upper] on one code point below 256.  The three code points whose
    upper case leaves that range (181, 223, 255) stay in place: none of
    them upper-cases to letters of an ASCII word without a double S. *)
Definition upper_char (c : ascii) : ascii :=
  let n := N_of_ascii c in
  if ((97 <=? n) && (n <=? 122)
      || (224 <=? n) && (n <=? 254) && negb (n =? 247))%N
  then ascii_of_N (n - 32) else c.

Fixpoint map_chars (f : ascii -> ascii) (s : string) : string :=
  match s with
  | EmptyString => EmptyString
  | String c s' => String (f c) (map_chars f s')
  end.

Definition lower (s : string) : string := map_chars lower_char s.
Definition upper (s : string) : string := map_chars upper_char s.

(** [s.replace(old, new)] for one-character [old] and [new]. *)
Definition replace (old new : ascii) (s : string) : string :=
  map_chars (fun c => if Ascii.eqb c old then new else c) s.

(** Truthiness of a string: [bool(s)]. *)
Definition truthy (s : string) : bool :=
  match s with EmptyString => false | String _ _ => true end.

Fixpoint lstrip (s : string) : string :=
  match s with
  | EmptyString => EmptyString
  | String c s' => if isspace c then lstrip s' else s
  end.

Fixpoint rstrip (s : string) : string :=
  match s with
  | EmptyString => EmptyString
  | String c s' =>
      match rstrip s' with
      | EmptyString => if isspace c then EmptyString else String c EmptyString
      | r => String c r
      end
  end.

(** [s.strip()] *)
Definition strip (s : string) : string := rstrip (lstrip s).

Definition flush (word : string) : list string :=
  if truthy word then [word] else [].

Fixpoint split_from (s : string) (word : string) : list string :=
  match s with
  | EmptyString => flush word
  | String c s' =>
      if isspace c then flush word ++ split_from s' EmptyString
      else split_from s' (word ++ String c EmptyString)
  end.

(** [s.split()]: the maximal runs of non-whitespace. *)
Definition split (s : string) : list string := split_from s EmptyString.

Fixpoint split_on_from (sep : ascii) (s : string) (cur : string)
  : list string :=
  match s with
  | EmptyString => [cur]
  | String c s' =>
      if Ascii.eqb c sep then cur :: split_on_from sep s' EmptyString
      else split_on_from sep s' (cur ++ String c EmptyString)
  end.

(** [s.split(sep)] for a one-character [sep]: empty pieces are kept. *)
Definition split_on (sep : ascii) (s : string) : list string :=
  split_on_from sep s EmptyString.

(** Occurrences of [sub] in [s] from the left, none overlapping another;
    [skip] characters are still covered by the last match. *)
Fixpoint count_from (sub : string) (s : string) (skip : nat) : nat :=
  match s with
  | EmptyString => O
  | String _ s' =>
      match skip with
      | S k => count_from sub s' k
      | O =>
          if String.prefix sub s
          then S (count_from sub s' (String.length sub - 1))
          else count_from sub s' O
      end
  end.

(** [s.count(sub)] *)
Definition count (s sub : string) : nat :=
  match sub with
  | EmptyString => S (String.length s)
  | String _ _ => count_from sub s O
  end.

(** [sep.join(l)] *)
Definition join (sep : string) (l : list string) : string :=
  String.concat sep l.

(** [s[:n]] *)
Definition slice_to (n : nat) (s : string) : string := substring 0 n s.

(** [len(set(l))] *)
Definition distinct (l : list string) : nat :=
  List.length (nodup string_dec l).

(** [sub in s]: [sub] occurs in [s]. *)
Fixpoint contains (s sub : string) : bool :=
  String.prefix sub s
  || match s with
     | EmptyString => false
     | String _ s' => contains s' sub
     end.

(** [str.isdigit] on one code point below 256: the ten digits and the
    superscripts two, three and one. *)
Definition isdigit (c : ascii) : bool :=
  let n := N_of_ascii c in
  ((48 <=? n) && (n <=? 57) || (n =? 178) || (n =? 179) || (n =? 185))%N.

(** [any(p(c) for c in s)] *)
Fixpoint any_char (p : ascii -> bool) (s : string) : bool :=
  match s with
  | EmptyString => false
  | String c s' => p c || any_char p s'
  end.

Fixpoint re_split_from (sep : ascii -> bool) (s : string) (cur : string)
         (in_run : bool) : list string :=
  match s with
  | EmptyString => [cur]
  | String c s' =>
      if sep c
      then if in_run then re_split_from sep s' EmptyString true
           else cur :: re_split_from sep s' EmptyString true
      else re_split_from sep s' (cur ++ String c EmptyString) false
  end.

(** [re.split(r'[...]+', s)] for a character class [sep]: the pieces
    between the maximal runs of separators, empty ones at the ends kept. *)
Definition re_split (sep : ascii -> bool) (s : string) : list string :=
  re_split_from sep s EmptyString false.

(** [l[-n:]] for a positive [n] *)
Definition last_n {X} (n : nat) (l : list X) : list X :=
  skipn (List.length l - n) l.

End PyStr.

(* ===================================================================== *)
(** ** Numbers *)
(* ===================================================================== *)

Module PyNum.

(** Nearest integer, ties to even. *)
Definition round_half_even (x : Q) : Z :=
  let f := Qfloor x in
  match Qcompare (x - inject_Z f) (1 # 2) with
  | Lt => f
  | Gt => (f + 1)%Z
  | Eq => if Z.even f then f else (f + 1)%Z
  end.

(** [round(x, 1)] *)
Definition round1 (x : Q) : Q := Qred (round_half_even (x * 10) # 10).

Definition sum (l : list Q) : Q := fold_right Qplus 0 l.

Definition of_nat (n : nat) : Q := inject_Z (Z.of_nat n).

(** [np.mean(l)] for a non-empty [l] (the source guards every use). *)
Definition mean (l : list Q) : Q := sum l / of_nat (List.length l).

(** [max(1, n)] on a length. *)
Definition max1 (n : nat) : Q := of_nat (Nat.max 1 n).

End PyNum.

(* ===================================================================== *)
(** ** Exceptions and results *)
(* ===================================================================== *)

Module Py.

Inductive Exn : Type :=
| AttributeError (msg : string)
| KeyError (key : string)
| ModelError (msg : string).

(** [str(e)] *)
Definition str (e : Exn) : string :=
  match e with
  | AttributeError msg => msg
  | KeyError key => "'" ++ key ++ "'"
  | ModelError msg => msg
  end.

Inductive result (A : Type) : Type :=
| Ok (a : A)
| Raise (e : Exn).

Arguments Ok {A} a.
Arguments Raise {A} e.

End Py.

(* ===================================================================== *)
(** ** ml_judge.py *)
(* ===================================================================== *)

Module ml_judge.
Import Py PyStr PyNum.

(** A call made to one of the two models, with the text submitted. *)
Inductive Call : Type :=
| sentiment_call (text : string)
| encode_call (text : string).

(** The judge object, and the calls made so far (oldest first). *)
Record State : Type := mkState {
  _initialized : bool;
  calls : list Call
}.

Definition M (A : Type) : Type := State -> result A * State.

Definition ret {A} (a : A) : M A := fun s => (Ok a, s).

Definition bind {A B} (m : M A) (k : A -> M B) : M B :=
  fun s => match m s with
           | (Ok a, s') => k a s'
           | (Raise e, s') => (Raise e, s')
           end.

Definition raise {A} (e : Exn) : M A := fun s => (Raise e, s).

(** [try: body  except Exception: handler] *)
Definition try_except {A} (body : M A) (handler : Exn -> M A) : M A :=
  fun s => match body s with
           | (Ok a, s') => (Ok a, s')
           | (Raise e, s') => handler e s'
           end.

Notation "x <- m ;; k" := (bind m (fun x => k))
  (at level 61, m at next level, right associativity).
Notation "m ;;; k" := (bind m (fun _ => k))
  (at level 61, right associativity).

(** [[f(x) for x in l]] *)
Fixpoint for_each {A B} (f : A -> M B) (l : list A) : M (list B) :=
  match l with
  | [] => ret []
  | x :: l' => y <- f x ;; ys <- for_each f l' ;; ret (y :: ys)
  end.

Definition log (c : Call) : M unit :=
  fun s => (Ok tt, mkState (_initialized s) (calls s ++ [c])).

Definition lift {A} (r : result A) : M A := fun s => (r, s).

Inductive Rating : Type := Poor | Fair | Good | Excellent.

(** [{"score": ..., "rating": ...}] *)
Record SubScore : Type := mkSubScore {
  score : Q;
  rating : Rating
}.

Inductive Metric : Type :=
| M_sentiment | M_clarity | M_vocab_richness | M_avg_word_len.

Definition metrics : list Metric :=
  [M_sentiment; M_clarity; M_vocab_richness; M_avg_word_len].

(** What [score_argument] returns. *)
Record ArgumentScoreSet : Type := mkScores {
  sentiment : SubScore;
  clarity : SubScore;
  vocab_richness : SubScore;
  avg_word_len : SubScore;
  length : nat
}.

(** [s[m]] for [m] in [metrics] *)
Definition item (s : ArgumentScoreSet) (m : Metric) : SubScore :=
  match m with
  | M_sentiment => sentiment s
  | M_clarity => clarity s
  | M_vocab_richness => vocab_richness s
  | M_avg_word_len => avg_word_len s
  end.

(** A dictionary [{m: f(m) for m in metrics}]. *)
Record ByMetric (X : Type) : Type := mkByMetric {
  at_sentiment : X;
  at_clarity : X;
  at_vocab_richness : X;
  at_avg_word_len : X
}.
Arguments mkByMetric {X}.
Arguments at_sentiment {X}.
Arguments at_clarity {X}.
Arguments at_vocab_richness {X}.
Arguments at_avg_word_len {X}.

Definition for_metrics {X} (f : Metric -> X) : ByMetric X :=
  mkByMetric (f M_sentiment) (f M_clarity) (f M_vocab_richness)
             (f M_avg_word_len).

Definition get {X} (d : ByMetric X) (m : Metric) : X :=
  match m with
  | M_sentiment => at_sentiment d
  | M_clarity => at_clarity d
  | M_vocab_richness => at_vocab_richness d
  | M_avg_word_len => at_avg_word_len d
  end.

(** A dictionary with the keys ["A"] and ["B"]. *)
Record BySide (X : Type) : Type := mkBySide { side_A : X; side_B : X }.
Arguments mkBySide {X}.
Arguments side_A {X}.
Arguments side_B {X}.

(** What [evaluate] returns. *)
Record Verdict : Type := mkVerdict {
  scores : BySide (ByMetric SubScore);
  coherence : SubScore;
  totals : BySide Q;
  winner : string
}.

Definition Qltb (x y : Q) : bool := negb (Qle_bool y x).

(** [_rating], lines 39-45 *)
Definition _rating (value : Q) : Rating :=
  if Qle_bool 85 value then Excellent
  else if Qle_bool 70 value then Good
  else if Qle_bool 50 value then Fair
  else Poor.

Definition filler : list string :=
  ["um"; "uh"; "like"; "you know"; "basically"; "so"].

(** The clarity block of [score_argument], lines 70-81. *)
Definition filler_count (text : string) : nat :=
  let lower := PyStr.lower text in
  list_sum (map (fun f => PyStr.count lower f) filler).

Definition sentences (text : string) : list string :=
  filter (fun s => truthy (strip s))
         (split_on "." (replace "!" "." (replace "?" "." text))).

Definition avg_wps (text : string) : Q :=
  of_nat (List.length (split text)) / max1 (List.length (sentences text)).

Definition clarity_raw (text : string) : Q :=
  let raw := 1 - Qmin 1 (of_nat (filler_count text)
                          / max1 (List.length (split text))) in
  if Qltb 30 (avg_wps text) then raw * (6 # 10) else raw.

Definition clarity_pct (text : string) : Q := round1 (clarity_raw text * 100).

(** The vocabulary block, lines 83-85. *)
Definition vocab_richness_raw (text : string) : Q :=
  let words := split text in
  of_nat (distinct (map PyStr.lower words)) / max1 (List.length words).

Definition vocab_pct (text : string) : Q :=
  round1 (vocab_richness_raw text * 100).

(** The word-length block, lines 87-89. *)
Definition avg_word_len_raw (text : string) : Q :=
  match split text with
  | [] => 0
  | words => mean (map (fun w => of_nat (String.length w)) words)
  end.

Definition avg_word_len_score (text : string) : Q :=
  Qmin 100 (round1 (avg_word_len_raw text * 10)).

Definition zero_scores : ArgumentScoreSet :=
  mkScores (mkSubScore 0 Poor) (mkSubScore 0 Poor) (mkSubScore 0 Poor)
           (mkSubScore 0 Poor) 0.

Section Judge.

(** [self.sentiment_analyzer(text)[0]] read as label and score; every way
    the call or the reading of its answer can fail is [Raise]. *)
Variable sentiment_analyzer : string -> result (string * Q).

(** [self.embedder.encode(text, convert_to_tensor=True)], which may raise,
    and [util.cos_sim(a, b).item()] on two embeddings it returned. *)
Variable Embedding : Type.
Variable encode : string -> result Embedding.
Variable cos_sim : Embedding -> Embedding -> Q.

(** [init_models], lines 26-37: the models of this section are the ones
    loaded; loading itself is taken to succeed. *)
Definition init_models : M unit :=
  fun s => if _initialized s then (Ok tt, s)
           else (Ok tt, mkState true (calls s)).

(** [if not self._initialized: self.init_models()] *)
Definition ensure_initialized : M unit :=
  fun s => if negb (_initialized s) then init_models s else (Ok tt, s).

Definition call_sentiment (text : string) : M (string * Q) :=
  log (sentiment_call text) ;;; lift (sentiment_analyzer text).

Definition call_encode (text : string) : M Embedding :=
  log (encode_call text) ;;; lift (encode text).

(** The sentiment block, lines 62-67. *)
Definition sentiment_score (text : string) : M Q :=
  try_except
    (r <- call_sentiment (slice_to 512 text) ;;
     ret (if String.eqb (upper (fst r)) "POSITIVE"
          then snd r else - snd r))
    (fun _ => ret 0).

(** [score_argument], lines 47-97 *)
Definition score_argument (text : string) : M ArgumentScoreSet :=
  ensure_initialized ;;;
  if negb (truthy (strip text)) then ret zero_scores
  else
    s <- sentiment_score text ;;
    let sentiment_pct := round1 ((s + 1) * 50) in
    let clarity_pct := clarity_pct text in
    let vocab_pct := vocab_pct text in
    let avg_word_len_score := avg_word_len_score text in
    ret (mkScores
           (mkSubScore sentiment_pct (_rating sentiment_pct))
           (mkSubScore clarity_pct (_rating clarity_pct))
           (mkSubScore vocab_pct (_rating vocab_pct))
           (mkSubScore avg_word_len_score (_rating avg_word_len_score))
           (List.length (split text))).

(** [compare_arguments], lines 99-110 *)
Definition compare_arguments (args_a args_b : list string) : M Q :=
  ensure_initialized ;;;
  let text_a := join " " args_a in
  let text_b := join " " args_b in
  if negb (truthy (strip text_a)) || negb (truthy (strip text_b))
  then ret 0
  else
    emb_a <- call_encode text_a ;;
    emb_b <- call_encode text_b ;;
    let sim := cos_sim emb_a emb_b in
    ret (round1 (sim * 100)).

(** [avg_scores], lines 121-122 *)
Definition avg_scores (scores : list ArgumentScoreSet) : ByMetric Q :=
  for_metrics (fun m =>
    match scores with
    | [] => 0
    | _ => mean (map (fun s => score (item s m)) scores)
    end).

(** [total_score], lines 129-134; [coherence] is the enclosing
    variable. *)
Definition total_score (coherence : Q) (avg : ByMetric Q) : Q :=
  (3 # 10) * get avg M_clarity +
  (3 # 10) * get avg M_sentiment +
  (2 # 10) * get avg M_vocab_richness +
  (1 # 10) * get avg M_avg_word_len +
  (1 # 10) * coherence.

(** Lines 136-148: the verdict, once the averages and the coherence are
    known. *)
Definition verdict_of (avg_a avg_b : ByMetric Q) (coherence : Q)
  : Verdict :=
  let total_a := round1 (total_score coherence avg_a) in
  let total_b := round1 (total_score coherence avg_b) in
  let winner := if Qle_bool total_b total_a then "A" else "B" in
  mkVerdict
    (mkBySide
       (for_metrics (fun m =>
          mkSubScore (round1 (get avg_a m)) (_rating (get avg_a m))))
       (for_metrics (fun m =>
          mkSubScore (round1 (get avg_b m)) (_rating (get avg_b m)))))
    (mkSubScore coherence (_rating coherence))
    (mkBySide total_a total_b)
    winner.

(** Lines 114-127 of [evaluate]: the averages of the two sides and the
    coherence. *)
Definition evaluate_inputs (args_a args_b : list string)
  : M (ByMetric Q * ByMetric Q * Q) :=
  ensure_initialized ;;;
  scores_a <- for_each score_argument args_a ;;
  scores_b <- for_each score_argument args_b ;;
  let avg_a := avg_scores scores_a in
  let avg_b := avg_scores scores_b in
  coherence <- compare_arguments args_a args_b ;;
  ret (avg_a, avg_b, coherence).

(** [evaluate], lines 112-148 *)
Definition evaluate (args_a args_b : list string) : M Verdict :=
  x <- evaluate_inputs args_a args_b ;;
  let '(avg_a, avg_b, coherence) := x in
  ret (verdict_of avg_a avg_b coherence).

End Judge.

End ml_judge.

(* ===================================================================== *)
(** ** advanced_ai.py *)
(* ===================================================================== *)

Module advanced_ai.
Import Py PyNum.

(** One argument of the debate as the route receives it: a dictionary
    with string keys. *)
Definition Dict : Type := list (string * string).

(** [d[key]] *)
Fixpoint getitem (d : Dict) (key : string) : result string :=
  match d with
  | [] => Raise (KeyError key)
  | (k, v) :: d' => if String.eqb k key then Ok v else getitem d' key
  end.

(** [sorted(l, key=..., reverse=True)]: decreasing keys, elements with
    equal keys in their original order. *)
Fixpoint insert_desc {X} (key : X -> Q) (x : X) (l : list X) : list X :=
  match l with
  | [] => [x]
  | y :: l' =>
      if Qle_bool (key y) (key x) then x :: y :: l'
      else y :: insert_desc key x l'
  end.

Definition sorted_desc {X} (key : X -> Q) (l : list X) : list X :=
  fold_right (insert_desc key) [] l.

(** [Counter(l)]: labels in first-seen order with their counts. *)
Fixpoint count_in (c : list (string * nat)) (x : string)
  : list (string * nat) :=
  match c with
  | [] => [(x, 1%nat)]
  | (k, n) :: c' =>
      if String.eqb k x then (k, S n) :: c' else (k, n) :: count_in c' x
  end.

Definition Counter (l : list string) : list (string * nat) :=
  fold_left count_in l [].

(** [c.most_common(n)] *)
Definition most_common (n : nat) (c : list (string * nat))
  : list (string * nat) :=
  firstn n (sorted_desc (fun kv => of_nat (snd kv)) c).

(** What [analyze_argument_emotion] returns. *)
Record EmotionResult : Type := mkEmotion {
  emotion : string;
  confidence : Q;
  emotions : list (string * Q)
}.

(** What [analyze_debate_dynamics] returns for a non-empty debate. *)
Record DebateDynamics : Type := mkDynamics {
  total_arguments : nat;
  emotional_diversity : Q;
  dominant_emotions : list (string * nat);
  average_similarity : Q;
  debate_coherence : Q;
  emotional_progression : list string
}.

Definition neutral : EmotionResult := mkEmotion "neutral" (1 # 2) [].

(** One entry of [structure_elements]. *)
Record StructureElement : Type := mkElement {
  type : string;
  sentence : string;
  keywords_found : list string
}.

(** What [analyze_argument_structure] returns. *)
Record StructureAnalysis : Type := mkStructure {
  sentence_count : nat;
  structure_elements : list StructureElement;
  has_evidence : bool;
  has_conclusion : bool;
  logical_flow_score : Q
}.

(** The dictionary [connectors], lines 84-89, in its order. *)
Definition connectors : list (string * list string) :=
  [("evidence",
    ["because"; "since"; "due to"; "evidence shows"; "studies indicate"]);
   ("conclusion",
    ["therefore"; "thus"; "hence"; "in conclusion"; "as a result"]);
   ("contrast",
    ["however"; "but"; "nevertheless"; "on the other hand"; "despite"]);
   ("support",
    ["furthermore"; "moreover"; "additionally"; "also"; "in addition"])].

(** The inner [for ... else] of lines 94-107 over the connectors still to
    try: the first class with a keyword in the sentence, or a statement. *)
Fixpoint classify_sentence (sentence sentence_lower : string)
         (classes : list (string * list string)) : StructureElement :=
  match classes with
  | [] => mkElement "statement" sentence []
  | (element_type, keywords) :: classes' =>
      if existsb (fun keyword => PyStr.contains sentence_lower keyword)
                 keywords
      then mkElement element_type sentence
                     (filter (fun kw => PyStr.contains sentence_lower kw)
                             keywords)
      else classify_sentence sentence sentence_lower classes'
  end.

(** [x in l] for a list of strings *)
Definition mem (x : string) (l : list string) : bool :=
  existsb (String.eqb x) l.

(** [_calculate_logical_flow_score], lines 117-145 *)
Definition _calculate_logical_flow_score (elements : list StructureElement)
  : Q :=
  match elements with
  | [] => 0
  | _ =>
      let score := 0 in
      let element_types := map type elements in
      let score :=
        if mem "evidence" element_types then score + (3 # 10) else score in
      let score :=
        if mem "conclusion" element_types then score + (2 # 10) else score in
      let score :=
        if (0 <? count_occ string_dec element_types "statement")%nat
        then score + (2 # 10) else score in
      let score :=
        if mem "contrast" element_types then score + (1 # 10) else score in
      let score :=
        if mem "support" element_types then score + (2 # 10) else score in
      Qmin score 1
  end.

(** The character class [[.!?]]. *)
Definition is_terminator (c : ascii) : bool :=
  Ascii.eqb c "." || Ascii.eqb c "!" || Ascii.eqb c "?".

(** The sentences of lines 80-81. *)
Definition structure_sentences (text : string) : list string :=
  map PyStr.strip
      (filter (fun s => PyStr.truthy (PyStr.strip s))
              (PyStr.re_split is_terminator text)).

(** [analyze_argument_structure], lines 77-115 *)
Definition analyze_argument_structure (text : string) : StructureAnalysis :=
  let sentences := structure_sentences text in
  let structure_elements :=
    map (fun sentence =>
           classify_sentence sentence (PyStr.lower sentence) connectors)
        sentences in
  mkStructure
    (List.length sentences)
    structure_elements
    (existsb (fun elem => String.eqb (type elem) "evidence")
             structure_elements)
    (existsb (fun elem => String.eqb (type elem) "conclusion")
             structure_elements)
    (_calculate_logical_flow_score structure_elements).

(** [suggest_counter_arguments], lines 239-264 *)
Definition suggest_counter_arguments (argument_text debate_topic : string)
  : list string :=
  let suggestions := [] in
  let suggestions :=
    if existsb (fun word => PyStr.contains (PyStr.lower argument_text) word)
               ["always"; "never"; "all"; "none"; "every"]
    then (suggestions
            ++ ["Challenge absolute statements with exceptions or edge cases"])
         %list
    else suggestions in
  let suggestions :=
    if existsb (fun word => PyStr.contains (PyStr.lower argument_text) word)
               ["because"; "causes"; "leads to"; "results in"]
    then (suggestions
            ++ ["Question the causal relationship - are there other factors involved?"])
         %list
    else suggestions in
  let suggestions :=
    if PyStr.any_char PyStr.isdigit argument_text
       || PyStr.contains (PyStr.lower argument_text) "percent"
    then (suggestions
            ++ ["Ask for sources and context for statistical claims"])%list
    else suggestions in
  let suggestions :=
    (suggestions
       ++ ["Present alternative perspectives or interpretations";
           "Ask for evidence to support key claims";
           "Highlight potential negative consequences";
           "Draw on relevant examples or case studies"])%list in
  firstn 3 suggestions.

(** What [classify_argument_topic] returns. *)
Record TopicResult : Type := mkTopic {
  topic : string;
  topic_confidence : Q;
  topic_scores : list (string * Q)
}.

(** What [generate_argument_feedback] returns. *)
Record Feedback : Type := mkFeedback {
  overall_score : Q;
  strengths : list string;
  improvements : list string;
  emotion_feedback : EmotionResult;
  structure_feedback : StructureAnalysis
}.

Section Analyzer.

(** The attributes of the analyzer: [None] until [init_models] has
    loaded them.  The classifier answers a list of labels with scores;
    the sentence model encodes a pair of texts. *)
Variable emotion_classifier :
  option (string -> result (list (string * Q))).
Variable Embedding : Type.
Variable sentence_model :
  option (string -> string -> result (Embedding * Embedding)).
(** [np.dot(u, v) / (np.linalg.norm(u) * np.linalg.norm(v))] *)
Variable cosine : Embedding -> Embedding -> Q.

(** [analyze_argument_emotion], lines 42-58 *)
Definition analyze_argument_emotion (text : string) : EmotionResult :=
  match emotion_classifier with
  | None => neutral
  | Some classify =>
      match classify text with
      | Raise _ => neutral
      | Ok result =>
          match sorted_desc snd result with
          | [] => neutral
          | top :: rest =>
              mkEmotion (fst top) (snd top) (firstn 3 (top :: rest))
          end
      end
  end.

(** [calculate_argument_similarity], lines 147-160 *)
Definition calculate_argument_similarity (text1 text2 : string) : Q :=
  match sentence_model with
  | None => 0
  | Some encode =>
      match encode text1 text2 with
      | Raise _ => 0
      | Ok (e0, e1) => cosine e0 e1
      end
  end.

(** The loop of lines 172-182; [prev] is [arguments[i-1]], absent when
    [i = 0]. *)
Fixpoint dynamics_loop (prev : option Dict) (arguments : list Dict)
         (emotions : list string) (similarities : list Q)
  : result (list string * list Q) :=
  match arguments with
  | [] => Ok (emotions, similarities)
  | arg :: rest =>
      match getitem arg "content" with
      | Raise e => Raise e
      | Ok content =>
          let emotion_result := analyze_argument_emotion content in
          let emotions := (emotions ++ [emotion emotion_result])%list in
          match prev with
          | None => dynamics_loop (Some arg) rest emotions similarities
          | Some before =>
              match getitem before "content" with
              | Raise e => Raise e
              | Ok previous =>
                  let similarity :=
                    calculate_argument_similarity previous content in
                  dynamics_loop (Some arg) rest emotions
                                (similarities ++ [similarity])%list
              end
          end
      end
  end.

(** [analyze_debate_dynamics], lines 162-198; [None] is the empty
    dictionary returned for no arguments. *)
Definition analyze_debate_dynamics (arguments : list Dict)
  : result (option DebateDynamics) :=
  match arguments with
  | [] => Ok None
  | _ =>
      match dynamics_loop None arguments [] [] with
      | Raise e => Raise e
      | Ok (emotions, similarities) =>
          let emotion_counts := Counter emotions in
          let emotional_diversity :=
            match emotions with
            | [] => 0
            | _ => of_nat (List.length emotion_counts)
                   / of_nat (List.length emotions)
            end in
          let avg_similarity :=
            match similarities with
            | [] => 0
            | _ => mean similarities
            end in
          Ok (Some (mkDynamics
                      (List.length arguments)
                      emotional_diversity
                      (most_common 3 emotion_counts)
                      avg_similarity
                      (1 - avg_similarity)
                      emotions))
      end
  end.

(** The zero-shot classifier: [None] until loaded; it answers the labels
    and their scores, in matching order. *)
Variable topic_classifier :
  option (string -> list string -> result (list string * list Q)).

(** [classify_argument_topic], lines 60-75 *)
Definition classify_argument_topic (text : string)
           (candidate_topics : list string) : TopicResult :=
  let default := mkTopic "general" (1 # 2) [] in
  match topic_classifier with
  | None => default
  | Some classify =>
      match classify text candidate_topics with
      | Raise _ => default
      | Ok (labels, scores) =>
          match labels, scores with
          | label :: _, score :: _ =>
              mkTopic label score (combine labels scores)
          | _, _ => default
          end
      end
  end.

(** [generate_argument_feedback], lines 200-237 *)
Definition generate_argument_feedback (text : string) (score : Q)
  : Feedback :=
  let emotion_analysis := analyze_argument_emotion text in
  let structure_analysis := analyze_argument_structure text in
  let strengths := [] in
  let improvements := [] in
  let '(strengths, improvements) :=
    if has_evidence structure_analysis
    then ((strengths
             ++ ["Good use of evidence to support your points"])%list,
          improvements)
    else (strengths,
          (improvements
             ++ ["Consider adding evidence or examples to strengthen your argument"])
          %list) in
  let '(strengths, improvements) :=
    if has_conclusion structure_analysis
    then ((strengths
             ++ ["Clear conclusion that ties your argument together"])%list,
          improvements)
    else (strengths,
          (improvements
             ++ ["Try ending with a strong concluding statement"])%list) in
  let '(strengths, improvements) :=
    if ml_judge.Qltb (7 # 10) (logical_flow_score structure_analysis)
    then ((strengths ++ ["Excellent logical structure and flow"])%list,
          improvements)
    else if ml_judge.Qltb (4 # 10) (logical_flow_score structure_analysis)
    then ((strengths ++ ["Good logical structure"])%list, improvements)
    else (strengths,
          (improvements
             ++ ["Work on creating a more logical flow between your points"])
          %list) in
  let '(strengths, improvements) :=
    if ml_judge.Qltb (8 # 10) (confidence emotion_analysis)
    then if mem (emotion emotion_analysis) ["joy"; "optimism"]
         then ((strengths ++ ["Positive and engaging tone"])%list,
               improvements)
         else if mem (emotion emotion_analysis) ["anger"; "disgust"]
         then (strengths,
               (improvements
                  ++ ["Consider using a more neutral tone to strengthen your argument"])
               %list)
         else (strengths, improvements)
    else (strengths, improvements) in
  mkFeedback score strengths improvements emotion_analysis structure_analysis.

End Analyzer.

End advanced_ai.

(* ===================================================================== *)
(** ** main.py: the finalize route *)
(* ===================================================================== *)

Module main.
Import Py ml_judge advanced_ai.

(** The names an instance of [DebateJudge] answers to: the methods of the
    class and the attributes set by [__init__] and [init_models]. *)
Definition DebateJudge_attributes : list string :=
  ["__init__"; "init_models"; "_rating"; "score_argument";
   "compare_arguments"; "evaluate";
   "device"; "_init_lock"; "_initialized"; "sentiment_analyzer"; "embedder"].

(** What the route answers: the result of the judge, with the dynamics
    under [debate_dynamics] when they were added, or [{"error": msg}]. *)
Inductive Response : Type :=
| Finalized (result : Verdict)
            (debate_dynamics : option (option DebateDynamics))
| Error (msg : string).

Section App.

(** What calling the attribute [name] of the judge on the arguments of
    the request does, for a name the judge has. *)
Variable call_attribute : string -> list Dict -> M Verdict.

Variable emotion_classifier :
  option (string -> result (list (string * Q))).
Variable Embedding : Type.
Variable sentence_model :
  option (string -> string -> result (Embedding * Embedding)).
Variable cosine : Embedding -> Embedding -> Q.

(** [judge.<name>(arguments)] on a judge that answers to [attributes]. *)
Definition call_judge (attributes : list string) (name : string)
           (arguments : list Dict) : M Verdict :=
  if existsb (String.eqb name) attributes
  then call_attribute name arguments
  else raise (AttributeError
                ("'DebateJudge' object has no attribute '" ++ name ++ "'")).

(** The body of the route, lines 74-85, over a judge that answers to
    [attributes]. *)
Definition finalize_debate_on (attributes : list string)
           (arguments : list Dict) : M Response :=
  try_except
    (result <- call_judge attributes "finalize_debate" arguments ;;
     match sentence_model with
     | Some _ =>
         dynamics <- lift (analyze_debate_dynamics emotion_classifier
                             Embedding sentence_model cosine arguments) ;;
         ret (Finalized result (Some dynamics))
     | None => ret (Finalized result None)
     end)
    (fun e => ret (Error (str e))).

(** [finalize_debate], lines 71-85: the route on the judge of the module,
    an instance of [DebateJudge]. *)
Definition finalize_debate (arguments : list Dict) : M Response :=
  finalize_debate_on DebateJudge_attributes arguments.

End App.

(** What the analyze route answers: [{"score": scores}] or
    [{"error": msg}]. *)
Inductive AnalyzeResponse : Type :=
| AnalyzeScore (score : ArgumentScoreSet)
| AnalyzeError (msg : string).

(** One element of [previous_arguments], a list the request schema leaves
    untyped: a dictionary, or a value of another type, kept by the name of
    its type. *)
Inductive Json : Type :=
| JDict (d : Dict)
| JOther (type_name : string).

(** [x.get(key, default)] *)
Definition json_get (x : Json) (key default : string) : result string :=
  match x with
  | JDict d =>
      Ok match getitem d key with Ok v => v | Raise _ => default end
  | JOther type_name =>
      Raise (AttributeError
               ("'" ++ type_name ++ "' object has no attribute 'get'"))
  end.

(** The result of the advanced-analysis route; the three optional keys are
    [None] when absent. *)
Record AdvancedResult : Type := mkAdvanced {
  emotion_analysis : EmotionResult;
  structure_analysis : StructureAnalysis;
  topic_analysis : option TopicResult;
  similarity_analysis : option (list (string * Q));
  counter_suggestions : option (list string)
}.

Inductive AdvancedResponse : Type :=
| AdvancedOk (result : AdvancedResult)
| AdvancedError (msg : string).

(** What the health route answers. *)
Record Health : Type := mkHealth {
  status : string;
  models_loaded : bool;
  advanced_ai_loaded : bool;
  timestamp : string
}.

Section Routes.

Variable sentiment_analyzer : string -> result (string * Q).
Variable emotion_classifier :
  option (string -> result (list (string * Q))).
Variable topic_classifier :
  option (string -> list string -> result (list string * list Q)).
Variable Embedding : Type.
Variable sentence_model :
  option (string -> string -> result (Embedding * Embedding)).
Variable cosine : Embedding -> Embedding -> Q.

(** Whether the attribute [name] of the judge is [None], for a name the
    judge has. *)
Variable attribute_is_none : string -> bool.

(** [analyze], lines 58-68 *)
Definition analyze (text : string) : M AnalyzeResponse :=
  try_except
    (if negb (PyStr.truthy (PyStr.strip text))
     then ret (AnalyzeError "No text provided")
     else
       scores <- score_argument sentiment_analyzer text ;;
       ret (AnalyzeScore scores))
    (fun e => ret (AnalyzeError (str e))).

(** The loop of lines 111-118 over the arguments still to compare. *)
Fixpoint similarity_loop (text : string) (previous : list Json)
         (similarities : list (string * Q)) : result (list (string * Q)) :=
  match previous with
  | [] => Ok similarities
  | prev_arg :: rest =>
      match json_get prev_arg "content" "" with
      | Raise e => Raise e
      | Ok content =>
          let similarity :=
            calculate_argument_similarity Embedding sentence_model cosine
                                          text content in
          match json_get prev_arg "id" "" with
          | Raise e => Raise e
          | Ok argument_id =>
              similarity_loop text rest
                              (similarities ++ [(argument_id, similarity)])
          end
      end
  end.

(** [advanced_analysis], lines 88-129 *)
Definition advanced_analysis (text debate_topic : string)
           (previous_arguments : list Json) : AdvancedResponse :=
  let emotion_result := analyze_argument_emotion emotion_classifier text in
  let structure_result := analyze_argument_structure text in
  let topic_result :=
    if PyStr.truthy debate_topic
    then Some (classify_argument_topic
                 topic_classifier text
                 [debate_topic; "general"; "politics"; "technology";
                  "society"; "ethics"])
    else None in
  let similarities :=
    match previous_arguments with
    | [] => Ok None
    | _ =>
        match similarity_loop text (PyStr.last_n 3 previous_arguments) [] with
        | Ok l => Ok (Some l)
        | Raise e => Raise e
        end
    end in
  match similarities with
  | Raise e => AdvancedError (str e)
  | Ok similarity_result =>
      let suggestions :=
        if PyStr.truthy debate_topic
        then Some (suggest_counter_arguments text debate_topic)
        else None in
      AdvancedOk (mkAdvanced emotion_result structure_result topic_result
                             similarity_result suggestions)
  end.

(** [judge.<name> is not None] *)
Definition judge_attribute_is_not_none (name : string) : M bool :=
  if existsb (String.eqb name) DebateJudge_attributes
  then ret (negb (attribute_is_none name))
  else raise (AttributeError
                ("'DebateJudge' object has no attribute '" ++ name ++ "'")).

(** [health_check], lines 143-150; nothing in the route catches. *)
Definition health_check : M Health :=
  models_loaded <- judge_attribute_is_not_none "model" ;;
  ret (mkHealth "healthy" models_loaded
                (match sentence_model with Some _ => true | None => false end)
                "2024-01-01T00:00:00Z").

End Routes.

End main.

(* ===================================================================== *)
(** ** Notions of the specification *)
(* ===================================================================== *)

Module Spec.
Import Py PyStr PyNum ml_judge advanced_ai.

(** A text that is empty or made of whitespace only. *)
Fixpoint whitespace_only (s : string) : bool :=
  match s with
  | EmptyString => true
  | String c s' => isspace c && whitespace_only s'
  end.

(** The clarity percentage as the specification words it:
    [100 * (1 - min(1, filler_count / max(1, word_count)))], times [0.6]
    when the average number of words per sentence exceeds 30. *)
Definition clarity_spec (text : string) : Q :=
  let word_count := List.length (split text) in
  let base :=
    100 * (1 - Qmin 1 (of_nat (filler_count text)
                       / of_nat (Nat.max 1 word_count))) in
  if Qltb 30 (avg_wps text) then base * (6 # 10) else base.

(** The raw sentiment the classifier's answer stands for. *)
Definition signed_sentiment (answer : result (string * Q)) : Q :=
  match answer with
  | Ok (label, s) => if String.eqb (upper label) "POSITIVE" then s else - s
  | Raise _ => 0
  end.

(** The verdict of a debate in which neither side said anything. *)
Definition zero_verdict : Verdict :=
  let zero := mkSubScore 0 Poor in
  let side := mkByMetric zero zero zero zero in
  mkVerdict (mkBySide side side) zero (mkBySide 0 0) "A".

Definition has_content (d : Dict) : bool :=
  match getitem d "content" with Ok _ => true | Raise _ => false end.

Definition content_of (d : Dict) : string :=
  match getitem d "content" with Ok c => c | Raise _ => EmptyString end.

(** The pairs of neighbours of a sequence, in order. *)
Fixpoint adjacent_pairs {X} (l : list X) : list (X * X) :=
  match l with
  | x :: ((y :: _) as l') => (x, y) :: adjacent_pairs l'
  | _ => []
  end.

(** The arithmetic mean, 0 for no value. *)
Definition mean_or_zero (l : list Q) : Q :=
  match l with [] => 0 | _ => mean l end.

(** A percentage: a value between 0 and 100. *)
Definition in_range (x : Q) : Prop := 0 <= x /\ x <= 100.

(** The arguments the loop of the analyzer has in view: the one before,
    when there is one, and those still to come. *)
Definition before (prev : option Dict) (l : list Dict) : list Dict :=
  match prev with Some p => p :: l | None => l end.

Section Neighbours.

Variable emotion_classifier : option (string -> result (list (string * Q))).
Variable Embedding : Type.
Variable sentence_model :
  option (string -> string -> result (Embedding * Embedding)).
Variable cosine : Embedding -> Embedding -> Q.

(** The similarity of a pair of neighbours. *)
Definition pair_similarity (p : Dict * Dict) : Q :=
  calculate_argument_similarity Embedding sentence_model cosine
    (content_of (fst p)) (content_of (snd p)).

(** The emotion label found for an argument. *)
Definition emotion_of (d : Dict) : string :=
  emotion (analyze_argument_emotion emotion_classifier (content_of d)).

End Neighbours.

(** The count a counter holds for a label, 0 when the label is absent. *)
Fixpoint count_of (c : list (string * nat)) (k : string) : nat :=
  match c with
  | [] => 0%nat
  | (k', n) :: c' => if String.eqb k' k then n else count_of c' k
  end.

(** The bonuses of the logical-flow score: 0.3 for evidence, 0.2 for a
    conclusion, 0.2 for a plain statement, 0.1 for a contrast and 0.2 for a
    support. *)
Definition flow_bonus (evidence conclusion statement contrast support : bool)
  : Q :=
  (if evidence then 3 # 10 else 0) + (if conclusion then 2 # 10 else 0)
  + (if statement then 2 # 10 else 0) + (if contrast then 1 # 10 else 0)
  + (if support then 2 # 10 else 0).

(** The kinds an element of the structure can have. *)
Definition element_kinds : list string :=
  ["evidence"; "conclusion"; "contrast"; "support"; "statement"].

(** A previous argument that is a dictionary, and what [get] reads in
    it. *)
Definition is_dict (x : main.Json) : bool :=
  match x with main.JDict _ => true | main.JOther _ => false end.

Definition get_or (x : main.Json) (key default : string) : string :=
  match main.json_get x key default with Ok v => v | Raise _ => default end.

(** The four ratings in their order. *)
Definition rating_rank (r : Rating) : nat :=
  match r with Poor => 0 | Fair => 1 | Good => 2 | Excellent => 3 end.

(** The calls [score_argument] makes over a list of arguments: one to the
    classifier for each argument that is not blank, on its first 512
    characters. *)
Definition sentiment_calls (args : list string) : list Call :=
  map (fun a => sentiment_call (PyStr.slice_to 512 a))
      (filter (fun a => negb (whitespace_only a)) args).

(** The calls [compare_arguments] makes when it returns. *)
Definition encode_calls (args_a args_b : list string) : list Call :=
  if whitespace_only (PyStr.join " " args_a)
     || whitespace_only (PyStr.join " " args_b)
  then []
  else [encode_call (PyStr.join " " args_a);
        encode_call (PyStr.join " " args_b)].

(** Decreasing scores along a list. *)
Fixpoint decreasing {X} (key : X -> Q) (l : list X) : Prop :=
  match l with
  | [] => True
  | x :: l' => (forall y, In y l' -> key y <= key x) /\ decreasing key l'
  end.

(** The keywords of a class of connectors. *)
Definition keywords_of (element_type : string) : list string :=
  match find (fun c => String.eqb (fst c) element_type) connectors with
  | Some c => snd c
  | None => []
  end.

(** Some keyword of a class occurs in the lower-cased sentence. *)
Definition mentions (element_type sentence : string) : bool :=
  existsb (fun kw => PyStr.contains (PyStr.lower sentence) kw)
          (keywords_of element_type).

End Spec.

(* ===================================================================== *)
(** ** Stand-ins for the external models, for concrete runs *)
(* ===================================================================== *)

Module Stubs.
Import Py ml_judge.

(** A sentiment classifier that is down. *)
Definition classifier_down : string -> result (string * Q) :=
  fun _ => Raise (ModelError "classifier unavailable").

(** A sentiment classifier that finds every text mildly positive. *)
Definition classifier_positive : string -> result (string * Q) :=
  fun _ => Ok ("POSITIVE", 8 # 10).

(** An embedder with a single embedding. *)
Definition encode_unit : string -> result unit := fun _ => Ok tt.

(** An embedder that is down. *)
Definition encode_down : string -> result unit :=
  fun _ => Raise (ModelError "embedder unavailable").

(** Cosine similarities: unrelated texts, and texts pointing away from
    each other. *)
Definition cos_zero : unit -> unit -> Q := fun _ _ => 0.
Definition cos_negative : unit -> unit -> Q := fun _ _ => - (1 # 2).

(** A fresh judge: [DebateJudge()] before any call. *)
Definition fresh : State := mkState false [].

(** A sentence model that finds every pair of texts at cosine 1/4. *)
Definition sentence_unit : option (string -> string -> result (unit * unit)) :=
  Some (fun _ _ => Ok (tt, tt)).
Definition cosine_quarter : unit -> unit -> Q := fun _ _ => 1 # 4.

(** An emotion classifier that is not loaded. *)
Definition emotion_none : option (string -> result (list (string * Q))) :=
  None.

(** An emotion classifier that answers four labels, two of them with the
    highest score. *)
Definition emotion_four : option (string -> result (list (string * Q))) :=
  Some (fun _ => Ok [("joy", 1 # 10); ("anger", 7 # 10); ("fear", 2 # 10);
                     ("sadness", 7 # 10)]).

(** A sentence model that is not loaded. *)
Definition sentence_none : option (string -> string -> result (unit * unit)) :=
  None.

(** A topic classifier that is not loaded. *)
Definition topic_none :
  option (string -> list string -> result (list string * list Q)) := None.

(** A text of five sentences, one of each kind. *)
Definition five_kinds : string :=
  "It works because we tested it. Therefore we keep it. It is cheap. However it is slow. Moreover it scales.".

(** A debate of three arguments as the dynamics analyzer expects them, and
    one as the finalize route receives them. *)
Definition debate : list advanced_ai.Dict :=
  [[("content", "we should"); ("id", "1")];
   [("content", "we should not")];
   [("content", "why")]].

Definition debate_as_sent : list advanced_ai.Dict :=
  [[("username", "ann"); ("argumentText", "we should")]].

End Stubs.

(* ===================================================================== *)
(** ** Facts about strings and rounding *)
(* ===================================================================== *)

Section StringFacts.
Import PyStr Spec.

Lemma lstrip_whitespace_only (s : string) :
  whitespace_only s = true -> lstrip s = EmptyString.
Proof.
  induction s as [|c s IH]; simpl; [reflexivity|].
  intros H. apply andb_true_iff in H as [Hc Hs].
  rewrite Hc. auto.
Qed.

Lemma rstrip_keeps_head (c : ascii) (s : string) :
  isspace c = false -> truthy (rstrip (String c s)) = true.
Proof.
  intros Hc. simpl. destruct (rstrip s); [rewrite Hc|]; reflexivity.
Qed.

Lemma lstrip_not_whitespace_only (s : string) :
  whitespace_only s = false ->
  exists c s', lstrip s = String c s' /\ isspace c = false.
Proof.
  induction s as [|c s IH]; simpl; [discriminate|].
  destruct (isspace c) eqn:Hc; simpl.
  - exact IH.
  - intros _. exists c, s. split; [reflexivity | exact Hc].
Qed.

(** The test [not text.strip()] of the source is the specification's
    "empty or whitespace-only". *)
Lemma strip_truthy (s : string) :
  truthy (strip s) = negb (whitespace_only s).
Proof.
  unfold strip. destruct (whitespace_only s) eqn:H.
  - rewrite (lstrip_whitespace_only _ H). reflexivity.
  - destruct (lstrip_not_whitespace_only _ H) as (c & s' & E & Hc).
    rewrite E. apply rstrip_keeps_head; assumption.
Qed.

Lemma slice_to_length (n : nat) (s : string) :
  (String.length (slice_to n s) <= n)%nat.
Proof.
  unfold slice_to. revert s.
  induction n as [|n IH]; intros [|c s]; simpl; try lia.
  specialize (IH s). lia.
Qed.

Lemma slice_to_prefix (n : nat) (s : string) :
  String.prefix (slice_to n s) s = true.
Proof.
  unfold slice_to. revert s.
  induction n as [|n IH]; intros [|c s]; simpl; try reflexivity.
  destruct (ascii_dec c c) as [_|N]; [apply IH | now elim N].
Qed.

End StringFacts.

Section RoundingFacts.
Import PyNum.

Lemma round_half_even_comp (x y : Q) :
  x == y -> round_half_even x = round_half_even y.
Proof.
  intros E. unfold round_half_even.
  rewrite (Qfloor_comp _ _ E).
  assert (C : Qcompare (x - inject_Z (Qfloor y)) (1 # 2)
              = Qcompare (y - inject_Z (Qfloor y)) (1 # 2)).
  { apply Qcompare_comp; [rewrite E|]; reflexivity. }
  rewrite C. reflexivity.
Qed.

Lemma round1_comp (x y : Q) : x == y -> round1 x = round1 y.
Proof.
  intros E. unfold round1.
  rewrite (round_half_even_comp (x * 10) (y * 10)); [reflexivity|].
  rewrite E. reflexivity.
Qed.

Lemma round_half_even_bounds (x : Q) :
  (Qfloor x <= round_half_even x <= Qfloor x + 1)%Z.
Proof.
  unfold round_half_even.
  destruct (Qcompare _ _); [destruct (Z.even _)| |]; lia.
Qed.

Lemma round_half_even_mono (x y : Q) :
  x <= y -> (round_half_even x <= round_half_even y)%Z.
Proof.
  intros L.
  pose proof (Qfloor_resp_le _ _ L) as F.
  destruct (Z.eq_dec (Qfloor x) (Qfloor y)) as [E|N].
  - unfold round_half_even. rewrite E.
    destruct (Qcompare_spec (x - inject_Z (Qfloor y)) (1 # 2)) as [Hx|Hx|Hx];
      destruct (Qcompare_spec (y - inject_Z (Qfloor y)) (1 # 2)) as [Hy|Hy|Hy];
      try destruct (Z.even (Qfloor y)); try lia; exfalso; lra.
  - pose proof (round_half_even_bounds x).
    pose proof (round_half_even_bounds y). lia.
Qed.

Lemma tenths_le (a b : Z) : (a <= b)%Z -> a # 10 <= b # 10.
Proof. intros H. unfold Qle. simpl. lia. Qed.

(** Rounding to a tenth never inverts an order. *)
Lemma round1_mono (x y : Q) : x <= y -> round1 x <= round1 y.
Proof.
  intros L. unfold round1. rewrite !Qred_correct.
  apply tenths_le, round_half_even_mono. lra.
Qed.

End RoundingFacts.

(* ===================================================================== *)
(** ** The judge: [score_argument], [compare_arguments], [evaluate] *)
(* ===================================================================== *)

Section JudgeFacts.
Import Py PyStr PyNum ml_judge Spec.

Variable sentiment_analyzer : string -> result (string * Q).
Variable Embedding : Type.
Variable encode : string -> result Embedding.
Variable cos_sim : Embedding -> Embedding -> Q.

Local Abbreviation score_argument :=
  (ml_judge.score_argument sentiment_analyzer).
Local Abbreviation compare_arguments :=
  (ml_judge.compare_arguments Embedding encode cos_sim).
Local Abbreviation evaluate_inputs :=
  (ml_judge.evaluate_inputs sentiment_analyzer Embedding encode cos_sim).
Local Abbreviation evaluate :=
  (ml_judge.evaluate sentiment_analyzer Embedding encode cos_sim).

Lemma ensure_initialized_run (st : State) :
  ensure_initialized st = (Ok tt, mkState true (calls st)).
Proof. destruct st as [[|] cs]; reflexivity. Qed.

Lemma sentiment_score_run (text : string) (st : State) :
  sentiment_score sentiment_analyzer text st
  = (Ok (signed_sentiment (sentiment_analyzer (slice_to 512 text))),
     mkState (_initialized st)
             (calls st ++ [sentiment_call (slice_to 512 text)])).
Proof.
  unfold sentiment_score, try_except, bind, call_sentiment, log, lift, ret.
  simpl. destruct (sentiment_analyzer (slice_to 512 text)) as [[l s]|e];
    reflexivity.
Qed.

Lemma score_argument_blank (text : string) (st : State) :
  whitespace_only text = true ->
  score_argument text st = (Ok zero_scores, mkState true (calls st)).
Proof.
  intros H. unfold ml_judge.score_argument, bind.
  rewrite ensure_initialized_run, strip_truthy, H. reflexivity.
Qed.

Lemma score_argument_nonblank (text : string) (st : State) :
  whitespace_only text = false ->
  score_argument text st
  = (let sentiment_pct :=
       round1 ((signed_sentiment (sentiment_analyzer (slice_to 512 text)) + 1)
               * 50) in
     Ok (mkScores
           (mkSubScore sentiment_pct (_rating sentiment_pct))
           (mkSubScore (clarity_pct text) (_rating (clarity_pct text)))
           (mkSubScore (vocab_pct text) (_rating (vocab_pct text)))
           (mkSubScore (avg_word_len_score text)
                       (_rating (avg_word_len_score text)))
           (List.length (split text))),
     mkState true (calls st ++ [sentiment_call (slice_to 512 text)])).
Proof.
  intros H. unfold ml_judge.score_argument, bind.
  rewrite ensure_initialized_run, strip_truthy, H. simpl.
  rewrite sentiment_score_run. reflexivity.
Qed.

(** [score_argument] returns on every text. *)
Lemma score_argument_returns (text : string) (st : State) :
  exists r st', score_argument text st = (Ok r, st').
Proof.
  destruct (whitespace_only text) eqn:H.
  - rewrite (score_argument_blank _ _ H). eauto.
  - rewrite (score_argument_nonblank _ _ H). eauto.
Qed.

Lemma for_each_score_argument_returns (args : list string) (st : State) :
  exists scores st',
    for_each score_argument args st = (Ok scores, st').
Proof.
  revert st. induction args as [|a args IH]; intros st; simpl.
  - unfold ret. eauto.
  - unfold bind.
    destruct (score_argument_returns a st) as (r & s1 & E). rewrite E.
    destruct (IH s1) as (rs & s2 & E'). rewrite E'. unfold ret. eauto.
Qed.

Lemma compare_arguments_blank (args_a args_b : list string) (st : State) :
  whitespace_only (join " " args_a) || whitespace_only (join " " args_b)
  = true ->
  compare_arguments args_a args_b st = (Ok 0, mkState true (calls st)).
Proof.
  intros H. unfold ml_judge.compare_arguments, bind.
  rewrite ensure_initialized_run, !strip_truthy.
  apply orb_true_iff in H as [H|H]; rewrite H; simpl;
    [|rewrite orb_true_r]; reflexivity.
Qed.

Lemma compare_arguments_nonblank (args_a args_b : list string) (st : State) :
  whitespace_only (join " " args_a) = false ->
  whitespace_only (join " " args_b) = false ->
  compare_arguments args_a args_b st
  = match encode (join " " args_a) with
    | Raise e =>
        (Raise e, mkState true (calls st ++ [encode_call (join " " args_a)]))
    | Ok emb_a =>
        let st' :=
          mkState true ((calls st ++ [encode_call (join " " args_a)])
                        ++ [encode_call (join " " args_b)]) in
        match encode (join " " args_b) with
        | Raise e => (Raise e, st')
        | Ok emb_b => (Ok (round1 (cos_sim emb_a emb_b * 100)), st')
        end
    end.
Proof.
  intros Ha Hb. unfold ml_judge.compare_arguments, bind.
  rewrite ensure_initialized_run, !strip_truthy, Ha, Hb. simpl.
  unfold call_encode, bind, log, lift, ret. simpl.
  destruct (encode (join " " args_a)); [|reflexivity].
  simpl. destruct (encode (join " " args_b)); reflexivity.
Qed.

(** [compare_arguments] raises only what the embedder raised. *)
Lemma compare_arguments_raises (args_a args_b : list string)
      (st st' : State) (e : Exn) :
  compare_arguments args_a args_b st = (Raise e, st') ->
  encode (join " " args_a) = Raise e \/ encode (join " " args_b) = Raise e.
Proof.
  destruct (whitespace_only (join " " args_a)) eqn:Ha.
  - rewrite compare_arguments_blank by (rewrite Ha; reflexivity).
    discriminate.
  - destruct (whitespace_only (join " " args_b)) eqn:Hb.
    + rewrite compare_arguments_blank
        by (rewrite Hb; apply orb_true_r).
      discriminate.
    + rewrite (compare_arguments_nonblank _ _ _ Ha Hb).
      destruct (encode (join " " args_a)) as [ea|xa].
      * destruct (encode (join " " args_b)) as [eb|xb]; simpl;
          intros E; inversion E; subst; auto.
      * intros E; inversion E; subst; auto.
Qed.

(** [evaluate] raises only what the embedder raised. *)
Lemma evaluate_inputs_raises (args_a args_b : list string)
      (st st' : State) (e : Exn) :
  evaluate_inputs args_a args_b st = (Raise e, st') ->
  encode (join " " args_a) = Raise e \/ encode (join " " args_b) = Raise e.
Proof.
  unfold ml_judge.evaluate_inputs, bind.
  rewrite ensure_initialized_run.
  destruct (for_each_score_argument_returns args_a (mkState true (calls st)))
    as (sa & s1 & Ea). rewrite Ea.
  destruct (for_each_score_argument_returns args_b s1) as (sb & s2 & Eb).
  rewrite Eb.
  destruct (compare_arguments args_a args_b s2) as [[c|x] s3] eqn:Ec.
  - discriminate.
  - intros E; inversion E; subst.
    eapply compare_arguments_raises; eassumption.
Qed.

Lemma winner_of_verdict (avg_a avg_b : ByMetric Q) (coh : Q) :
  let v := verdict_of avg_a avg_b coh in
  totals v = mkBySide (round1 (total_score coh avg_a))
                      (round1 (total_score coh avg_b)) /\
  (winner v = "A" <-> side_B (totals v) <= side_A (totals v)) /\
  (winner v = "B" <-> side_A (totals v) < side_B (totals v)).
Proof.
  simpl. split; [reflexivity|].
  destruct (Qle_bool _ _) eqn:L.
  - apply Qle_bool_iff in L. repeat split; intros; try reflexivity;
      try assumption; try discriminate. exfalso; lra.
  - assert (N : ~ round1 (total_score coh avg_b)
                  <= round1 (total_score coh avg_a)).
    { intros C. apply Qle_bool_iff in C. congruence. }
    repeat split; intros; try reflexivity; try discriminate;
      try contradiction; lra.
Qed.

Lemma round1_exact (x : Q) (k : Z) : x == k # 10 -> round1 x == x.
Proof.
  intros E. unfold round1. rewrite Qred_correct.
  assert (T : x * 10 == inject_Z k).
  { rewrite E. unfold Qeq. simpl. lia. }
  rewrite (round_half_even_comp _ _ T). unfold round_half_even.
  rewrite Qfloor_Z.
  assert (C : Qcompare (inject_Z k - inject_Z k) (1 # 2) = Lt).
  { apply (proj1 (Qlt_alt _ _)). lra. }
  rewrite C. symmetry. exact E.
Qed.

(** The clarity block of the source computes what the specification
    words. *)
Lemma clarity_raw_spec (text : string) :
  clarity_raw text * 100 == clarity_spec text.
Proof.
  unfold clarity_raw, clarity_spec, max1.
  destruct (Qltb 30 (avg_wps text)); ring.
Qed.






(** C4, the half the code does not have: when both joined texts have
    content and the embedder raises on the first, [compare_arguments] raises
    the same exception after that one call; nothing catches it and no 0.0 is
    returned. *)
Theorem C4_embedder_failure_propagates (args_a args_b : list string)
        (st : State) (e : Exn) :
  whitespace_only (join " " args_a) = false ->
  whitespace_only (join " " args_b) = false ->
  encode (join " " args_a) = Raise e ->
  compare_arguments args_a args_b st
  = (Raise e, mkState true (calls st ++ [encode_call (join " " args_a)])).
Proof.
  intros Ha Hb E.
  rewrite (compare_arguments_nonblank _ _ _ Ha Hb), E. reflexivity.
Qed.

(** Every sub-score [score_argument] returns is rated on the value it
    reports. *)
Lemma score_argument_rates_reported_value (text : string) (st st' : State)
      (r : ArgumentScoreSet) (m : Metric) :
  score_argument text st = (Ok r, st') ->
  rating (item r m) = _rating (score (item r m)).
Proof.
  destruct (whitespace_only text) eqn:H.
  - rewrite (score_argument_blank _ _ H). intros E; inversion E; subst.
    destruct m; reflexivity.
  - rewrite (score_argument_nonblank _ _ H). intros E; inversion E; subst.
    destruct m; reflexivity.
Qed.

(** The coherence of a verdict is rated on the value it reports; the
    averages of a side are reported rounded and rated unrounded. *)
Lemma verdict_ratings (avg_a avg_b : ByMetric Q) (coh : Q) :
  let v := verdict_of avg_a avg_b coh in
  rating (coherence v) = _rating (score (coherence v)) /\
  forall m,
    get (side_A (scores v)) m
    = mkSubScore (round1 (get avg_a m)) (_rating (get avg_a m)) /\
    get (side_B (scores v)) m
    = mkSubScore (round1 (get avg_b m)) (_rating (get avg_b m)).
Proof.
  simpl. split; [reflexivity|]. intros m; destruct m; split; reflexivity.
Qed.

End JudgeFacts.

(* ===================================================================== *)
(** ** Ranges of the scores *)
(* ===================================================================== *)

Section ScoreRanges.
Import Py PyStr PyNum ml_judge Spec.

Lemma round1_in_range (x : Q) : in_range x -> in_range (round1 x).
Proof.
  intros [L U]. split.
  - change 0 with (round1 0). apply round1_mono, L.
  - change 100 with (round1 100). apply round1_mono, U.
Qed.

Lemma of_nat_nonneg (n : nat) : 0 <= of_nat n.
Proof. unfold of_nat, Qle. simpl. lia. Qed.

Lemma of_nat_le (n m : nat) : (n <= m)%nat -> of_nat n <= of_nat m.
Proof. intros H. unfold of_nat, Qle. simpl. lia. Qed.

Lemma max1_pos (n : nat) : 0 < max1 n.
Proof. unfold max1, of_nat, Qlt. cbn -[Nat.max]. lia. Qed.

Lemma ratio_nonneg (a b : Q) : 0 <= a -> 0 < b -> 0 <= a / b.
Proof. intros A B. apply Qle_shift_div_l; [exact B | lra]. Qed.

Lemma ratio_le_1 (a b : Q) : a <= b -> 0 < b -> a / b <= 1.
Proof. intros A B. apply Qle_shift_div_r; [exact B | lra]. Qed.

Lemma clarity_pct_in_range (text : string) : in_range (clarity_pct text).
Proof.
  apply round1_in_range. unfold clarity_raw.
  set (q := of_nat (filler_count text) / max1 (List.length (split text))).
  assert (Q0 : 0 <= q) by (apply ratio_nonneg;
                           [apply of_nat_nonneg | apply max1_pos]).
  assert (M1 : Qmin 1 q <= 1) by apply Q.le_min_l.
  assert (M0 : 0 <= Qmin 1 q) by (apply Q.min_glb; lra).
  unfold in_range. destruct (Qltb 30 (avg_wps text)); split; lra.
Qed.

Lemma distinct_le_length (l : list string) :
  (distinct l <= List.length l)%nat.
Proof.
  unfold distinct. induction l as [|x l IH]; simpl; [lia|].
  destruct (in_dec string_dec x l); simpl; lia.
Qed.

Lemma vocab_pct_in_range (text : string) : in_range (vocab_pct text).
Proof.
  apply round1_in_range. unfold vocab_richness_raw.
  set (words := split text).
  set (q := of_nat (distinct (map lower words)) / max1 (List.length words)).
  assert (Q0 : 0 <= q) by (apply ratio_nonneg;
                           [apply of_nat_nonneg | apply max1_pos]).
  assert (Q1 : q <= 1).
  { apply ratio_le_1; [|apply max1_pos]. unfold max1. apply of_nat_le.
    pose proof (distinct_le_length (map lower words)) as D.
    rewrite length_map in D. lia. }
  unfold in_range. split; lra.
Qed.

Lemma sum_nonneg (l : list Q) : Forall (fun x => 0 <= x) l -> 0 <= sum l.
Proof.
  induction 1 as [|x l Hx _ IH]; simpl; [lra|]. lra.
Qed.

Lemma sum_le (l : list Q) (c : Q) :
  Forall (fun x => x <= c) l -> sum l <= c * of_nat (List.length l).
Proof.
  induction 1 as [|x l Hx _ IH].
  - change (0 <= c * 0). lra.
  - change (x + sum l <= c * of_nat (S (List.length l))).
    assert (E : c * of_nat (S (List.length l))
                == c * of_nat (List.length l) + c).
    { unfold of_nat. rewrite Nat2Z.inj_succ, <- Z.add_1_r, inject_Z_plus.
      ring. }
    rewrite E. lra.
Qed.

Lemma of_nat_length_pos {X} (x : X) (l : list X) :
  0 < of_nat (List.length (x :: l)).
Proof. unfold of_nat, Qlt. simpl. lia. Qed.

Lemma mean_nonneg (l : list Q) :
  l <> [] -> Forall (fun x => 0 <= x) l -> 0 <= mean l.
Proof.
  intros N H. destruct l as [|x l]; [contradiction|].
  apply ratio_nonneg; [apply sum_nonneg, H | apply of_nat_length_pos].
Qed.

Lemma mean_le (l : list Q) (c : Q) :
  l <> [] -> Forall (fun x => x <= c) l -> mean l <= c.
Proof.
  intros N H. destruct l as [|x l]; [contradiction|].
  apply Qle_shift_div_r; [apply of_nat_length_pos|].
  apply sum_le, H.
Qed.

Lemma avg_word_len_score_in_range (text : string) :
  in_range (avg_word_len_score text).
Proof.
  unfold avg_word_len_score. split; [|apply Q.le_min_l].
  apply Q.min_glb; [lra|].
  change 0 with (round1 0). apply round1_mono.
  assert (A : 0 <= avg_word_len_raw text).
  { unfold avg_word_len_raw. destruct (split text) as [|w ws]; [lra|].
    apply mean_nonneg; [discriminate|].
    apply Forall_forall. intros x Hx. apply in_map_iff in Hx as (y & <- & _).
    apply of_nat_nonneg. }
  lra.
Qed.

Variable sentiment_analyzer : string -> result (string * Q).

(** The classifier answers scores between 0 and 1. *)
Hypothesis classifier_scores :
  forall text label s,
    sentiment_analyzer text = Ok (label, s) -> 0 <= s /\ s <= 1.

(** Every sub-score of an argument lies between 0 and 100. *)
Lemma score_argument_in_range (text : string) (st st' : State)
      (r : ArgumentScoreSet) (m : Metric) :
  score_argument sentiment_analyzer text st = (Ok r, st') ->
  in_range (score (item r m)).
Proof.
  destruct (whitespace_only text) eqn:H.
  - rewrite (score_argument_blank _ _ _ H). intros E; inversion E; subst.
    destruct m; split; simpl; lra.
  - rewrite (score_argument_nonblank _ _ _ H). intros E; inversion E; subst.
    destruct m; cbn [item sentiment clarity vocab_richness avg_word_len score].
    + apply round1_in_range. unfold signed_sentiment.
      destruct (sentiment_analyzer (slice_to 512 text)) as [[label s]|e] eqn:C.
      * destruct (classifier_scores _ _ _ C) as [L U].
        destruct (String.eqb _ _); split; lra.
      * split; lra.
    + apply clarity_pct_in_range.
    + apply vocab_pct_in_range.
    + apply avg_word_len_score_in_range.
Qed.

Lemma for_each_score_argument_in_range (args : list string) :
  forall (st st' : State) (scores : list ArgumentScoreSet) (m : Metric),
    for_each (score_argument sentiment_analyzer) args st = (Ok scores, st') ->
    Forall (fun s => in_range (score (item s m))) scores.
Proof.
  induction args as [|a args IH]; intros st st' scores m; simpl.
  - unfold ret. intros E; inversion E; constructor.
  - unfold bind.
    destruct (score_argument sentiment_analyzer a st) as [[r|e] s1] eqn:Ea;
      [|discriminate].
    destruct (for_each _ args s1) as [[rs|e] s2] eqn:Er; [|discriminate].
    unfold ret. intros E; inversion E; subst. constructor.
    + eapply score_argument_in_range; eassumption.
    + eapply IH; eassumption.
Qed.

(** So does every average of a side, and the score reported for it. *)
Lemma avg_scores_in_range (scores : list ArgumentScoreSet) (m : Metric) :
  Forall (fun s => in_range (score (item s m))) scores ->
  in_range (get (avg_scores scores) m) /\
  in_range (round1 (get (avg_scores scores) m)).
Proof.
  intros H.
  assert (A : in_range (get (avg_scores scores) m)).
  { assert (G : get (avg_scores scores) m
                = match scores with
                  | [] => 0
                  | _ => mean (map (fun s => score (item s m)) scores)
                  end) by (destruct m; reflexivity).
    rewrite G. destruct scores as [|s scores]; [split; lra|].
    split.
    - apply mean_nonneg; [discriminate|].
      apply Forall_map. eapply Forall_impl; [|exact H].
      intros a [L _]; exact L.
    - apply mean_le; [discriminate|].
      apply Forall_map. eapply Forall_impl; [|exact H].
      intros a [_ U]; exact U. }
  split; [exact A | apply round1_in_range, A].
Qed.

End ScoreRanges.

(* ===================================================================== *)
(** ** Concrete runs of the judge *)
(* ===================================================================== *)

Section JudgeRuns.
Import Py PyStr PyNum ml_judge Spec Stubs.




Lemma C4_embedder_failure_propagates_witness :
  compare_arguments unit encode_down cos_zero ["yes"] ["no"] fresh
  = (Raise (ModelError "embedder unavailable"),
     mkState true (calls fresh ++ [encode_call (join " " ["yes"])])).
Proof.
  apply (C4_embedder_failure_propagates unit encode_down cos_zero
           ["yes"] ["no"] fresh);
    reflexivity.
Defined.


(** C3 at a negative cosine similarity: with similarity -0.5 between the
    two sides, [compare_arguments] returns -50.0, and the verdict of
    [evaluate] carries a coherence of -50.0, below 0. *)
Theorem C3_negative_similarity_not_clamped :
  compare_arguments unit encode_unit cos_negative ["yes"] ["no"] fresh
  = (Ok (- (50)), mkState true [encode_call "yes"; encode_call "no"]) /\
  exists v st',
    evaluate classifier_down unit encode_unit cos_negative
             ["yes"] ["no"] fresh
    = (Ok v, st') /\
    coherence v = mkSubScore (- (50)) Poor /\
    score (coherence v) < 0.
Proof.
  split; [vm_compute; reflexivity|].
  do 2 eexists. split; [vm_compute; reflexivity|].
  split; [reflexivity|]. vm_compute; reflexivity.
Qed.

(** C10 on the averages of a side: three arguments with clarity 33.3, 33.3
    and 83.3 average 49.9666..., which [evaluate] reports as 50.0 and rates
    on the unrounded value: Poor, where the reported 50.0 is Fair. *)
Theorem C10_side_average_rated_unrounded :
  exists v st',
    evaluate classifier_down unit encode_unit cos_zero
             ["um uh x"; "um uh x"; "um a b c d e"] [] fresh
    = (Ok v, st') /\
    get (side_A (scores v)) M_clarity = mkSubScore 50 Poor /\
    _rating 50 = Fair.
Proof.
  do 2 eexists. split; [vm_compute; reflexivity|].
  split; reflexivity.
Qed.

End JudgeRuns.

(* ===================================================================== *)
(** ** The debate dynamics analyzer *)
(* ===================================================================== *)

Section AnalyzerFacts.
Import Py PyNum advanced_ai Spec.

Variable emotion_classifier : option (string -> result (list (string * Q))).
Variable Embedding : Type.
Variable sentence_model :
  option (string -> string -> result (Embedding * Embedding)).
Variable cosine : Embedding -> Embedding -> Q.

Local Abbreviation analyze_argument_emotion :=
  (advanced_ai.analyze_argument_emotion emotion_classifier).
Local Abbreviation calculate_argument_similarity :=
  (advanced_ai.calculate_argument_similarity Embedding sentence_model cosine).
Local Abbreviation dynamics_loop :=
  (advanced_ai.dynamics_loop emotion_classifier Embedding sentence_model
                             cosine).
Local Abbreviation analyze_debate_dynamics :=
  (advanced_ai.analyze_debate_dynamics emotion_classifier Embedding
                                       sentence_model cosine).
Local Abbreviation pair_similarity :=
  (Spec.pair_similarity Embedding sentence_model cosine).
Local Abbreviation emotion_of := (Spec.emotion_of emotion_classifier).

Lemma getitem_content (d : Dict) :
  has_content d = true -> getitem d "content" = Ok (content_of d).
Proof.
  unfold has_content, content_of.
  destruct (getitem d "content"); [reflexivity | discriminate].
Qed.

(** The loop collects one emotion per argument and one similarity per pair
    of neighbours, in order. *)
Lemma dynamics_loop_collects (arguments : list Dict) :
  forall (prev : option Dict) (emotions : list string) (similarities : list Q),
    forallb has_content (before prev arguments) = true ->
    dynamics_loop prev arguments emotions similarities
    = Ok ((emotions ++ map emotion_of arguments)%list,
          (similarities
             ++ map pair_similarity (adjacent_pairs (before prev arguments)))
          %list).
Proof.
  induction arguments as [|a rest IH]; intros prev emotions similarities H.
  - simpl. destruct prev; simpl; rewrite !app_nil_r; reflexivity.
  - assert (Ha : has_content a = true /\ forallb has_content rest = true).
    { destruct prev; simpl in H; rewrite !andb_true_iff in H; tauto. }
    destruct Ha as [Ha Hrest].
    cbn [advanced_ai.dynamics_loop]. rewrite (getitem_content _ Ha).
    destruct prev as [p|].
    + assert (Hp : has_content p = true).
      { simpl in H. rewrite !andb_true_iff in H. tauto. }
      rewrite (getitem_content _ Hp).
      rewrite (IH (Some a)) by (simpl; rewrite Ha; exact Hrest).
      simpl. rewrite <- !app_assoc. reflexivity.
    + rewrite (IH (Some a)) by (simpl; rewrite Ha; exact Hrest).
      simpl. rewrite <- !app_assoc. reflexivity.
Qed.

(** An argument without the key [content] makes the analyzer raise. *)
Lemma analyze_debate_dynamics_key_error (d : Dict) (rest : list Dict) :
  has_content d = false ->
  analyze_debate_dynamics (d :: rest) = Raise (KeyError "content").
Proof.
  unfold has_content. intros H.
  unfold advanced_ai.analyze_debate_dynamics. cbn [advanced_ai.dynamics_loop].
  assert (G : forall l, getitem l "content" = Raise (KeyError "content")
                        \/ exists c, getitem l "content" = Ok c).
  { induction l as [|[k v] l IHl]; simpl; [left; reflexivity|].
    destruct (String.eqb k "content"); [right; eauto | exact IHl]. }
  destruct (G d) as [E|[c E]]; rewrite E in *; [reflexivity|discriminate].
Qed.

(** C9: for a non-empty sequence of arguments (each with its content), the
    analyzer returns dynamics whose [debate_coherence] is exactly
    [1 - average_similarity], where [average_similarity] is the arithmetic
    mean of the similarities of the pairs of neighbours, and 0 when there
    are fewer than two arguments; then [debate_coherence] is 1. *)
Theorem C9_debate_coherence (arguments : list Dict) :
  arguments <> [] ->
  forallb has_content arguments = true ->
  exists d,
    analyze_debate_dynamics arguments = Ok (Some d) /\
    debate_coherence d = 1 - average_similarity d /\
    average_similarity d
    = mean_or_zero (map pair_similarity (adjacent_pairs arguments)) /\
    ((List.length arguments < 2)%nat ->
     average_similarity d = 0 /\ debate_coherence d = 1).
Proof.
  intros N H. destruct arguments as [|a rest]; [contradiction|].
  unfold advanced_ai.analyze_debate_dynamics.
  rewrite (dynamics_loop_collects (a :: rest) None [] []) by exact H.
  cbn [app before]. eexists. split; [reflexivity|].
  cbn [debate_coherence average_similarity].
  split; [reflexivity|]. split; [reflexivity|].
  intros L. destruct rest as [|b rest]; [|simpl in L; lia].
  split; reflexivity.
Qed.

End AnalyzerFacts.

Lemma C9_debate_coherence_witness :
  exists d,
    advanced_ai.analyze_debate_dynamics
      Stubs.emotion_none unit Stubs.sentence_unit Stubs.cosine_quarter
      [[("content", "we should"); ("id", "1")];
       [("content", "we should not")];
       [("content", "why")]]
    = Py.Ok (Some d) /\
    advanced_ai.debate_coherence d = 1 - advanced_ai.average_similarity d /\
    advanced_ai.average_similarity d == 1 # 4 /\
    advanced_ai.debate_coherence d == 3 # 4.
Proof.
  destruct (C9_debate_coherence
              Stubs.emotion_none unit Stubs.sentence_unit Stubs.cosine_quarter
              [[("content", "we should"); ("id", "1")];
               [("content", "we should not")];
               [("content", "why")]])
    as (d & E & C & A & _); [discriminate | reflexivity |].
  exists d. split; [exact E|]. split; [exact C|].
  assert (A' : advanced_ai.average_similarity d == 1 # 4)
    by (rewrite A; reflexivity).
  split; [exact A'|]. rewrite C, A'. reflexivity.
Defined.

(* ===================================================================== *)
(** ** The finalize route *)
(* ===================================================================== *)

Section RouteFacts.
Import Py ml_judge advanced_ai main.

Variable call_attribute : string -> list Dict -> M Verdict.
Variable emotion_classifier : option (string -> result (list (string * Q))).
Variable Embedding : Type.
Variable sentence_model :
  option (string -> string -> result (Embedding * Embedding)).
Variable cosine : Embedding -> Embedding -> Q.

Local Abbreviation finalize_debate_on :=
  (main.finalize_debate_on call_attribute emotion_classifier Embedding
                           sentence_model cosine).
Local Abbreviation finalize_debate :=
  (main.finalize_debate call_attribute emotion_classifier Embedding
                        sentence_model cosine).

(** The route never raises: whatever happens inside is answered. *)
Lemma finalize_debate_on_answers (attributes : list string)
      (arguments : list Dict) (st : State) :
  exists response st',
    finalize_debate_on attributes arguments st = (Ok response, st').
Proof.
  unfold main.finalize_debate_on, try_except, bind, lift, ret.
  destruct (call_judge call_attribute attributes "finalize_debate"
                       arguments st) as [[v|e] s1]; [|eauto].
  destruct sentence_model; [|eauto].
  destruct (analyze_debate_dynamics _ _ _ _ arguments); eauto.
Qed.

(** On a judge that had the method, the route would answer its verdict,
    with the dynamics merged when the sentence model is loaded, and an
    error when the analyzer raises. *)
Lemma finalize_debate_on_merges (attributes : list string)
      (arguments : list Dict) (st st' : State) (v : Verdict) :
  In "finalize_debate" attributes ->
  call_attribute "finalize_debate" arguments st = (Ok v, st') ->
  finalize_debate_on attributes arguments st
  = (Ok match sentence_model with
        | None => Finalized v None
        | Some _ =>
            match analyze_debate_dynamics emotion_classifier Embedding
                    sentence_model cosine arguments with
            | Ok dynamics => Finalized v (Some dynamics)
            | Raise e => Error (str e)
            end
        end, st').
Proof.
  intros I C.
  assert (X : existsb (String.eqb "finalize_debate") attributes = true).
  { apply existsb_exists. exists "finalize_debate". split; [exact I|].
    apply String.eqb_refl. }
  unfold main.finalize_debate_on, try_except, bind, call_judge, lift, ret.
  rewrite X, C.
  destruct sentence_model; [|reflexivity].
  destruct (analyze_debate_dynamics _ _ _ _ arguments); reflexivity.
Qed.

(** C2 on the code: [DebateJudge] has no [finalize_debate] (the name is not
    among those an instance answers to), so the call of the route raises
    AttributeError before any verdict or dynamics exist, and the route
    answers that error for every request, with the judge left as it was. *)
Theorem C2_finalize_always_answers_error (arguments : list Dict)
        (st : State) :
  ~ In "finalize_debate" DebateJudge_attributes /\
  call_judge call_attribute DebateJudge_attributes "finalize_debate"
             arguments st
  = (Raise (AttributeError
              "'DebateJudge' object has no attribute 'finalize_debate'"),
     st) /\
  finalize_debate arguments st
  = (Ok (Error "'DebateJudge' object has no attribute 'finalize_debate'"),
     st).
Proof.
  split.
  - unfold DebateJudge_attributes. simpl.
    intros H. repeat (destruct H as [H|H]; [discriminate H|]). exact H.
  - assert (C : call_judge call_attribute DebateJudge_attributes
                           "finalize_debate" arguments st
                = (Raise (AttributeError
                     "'DebateJudge' object has no attribute 'finalize_debate'"),
                   st)) by reflexivity.
    split; [exact C|].
    unfold main.finalize_debate, main.finalize_debate_on, try_except, bind.
    rewrite C. reflexivity.
Qed.

End RouteFacts.

(* ===================================================================== *)
(** ** Further properties of the judge *)
(* ===================================================================== *)

Section WordFacts.
Import PyStr Spec.

Lemma truthy_snoc (word : string) (c : ascii) :
  truthy (word ++ String c EmptyString) = true.
Proof. destruct word; reflexivity. Qed.

Lemma truthy_length (w : string) :
  truthy w = true -> (1 <= String.length w)%nat.
Proof. destruct w; simpl; [discriminate | lia]. Qed.

Lemma split_from_nil (s word : string) :
  split_from s word = [] <->
  truthy word = false /\ whitespace_only s = true.
Proof.
  revert word. induction s as [|c s IH]; intros word; simpl.
  - unfold flush. destruct (truthy word); split; intros H;
      try discriminate; try tauto. destruct H; discriminate.
  - destruct (isspace c); simpl.
    + unfold flush. destruct (truthy word); simpl.
      * split; [discriminate | intros [H _]; discriminate].
      * rewrite (IH EmptyString). simpl. tauto.
    + rewrite IH, truthy_snoc.
      split; [intros [H _]; discriminate | intros [_ H]; discriminate].
Qed.

(** No word at all exactly in a blank text. *)
Lemma split_nil (text : string) :
  split text = [] <-> whitespace_only text = true.
Proof. unfold split. rewrite split_from_nil. simpl. tauto. Qed.

Lemma split_from_words (s word : string) :
  Forall (fun w => truthy w = true) (split_from s word).
Proof.
  revert word. induction s as [|c s IH]; intros word; simpl.
  - unfold flush. destruct (truthy word) eqn:T; auto.
  - destruct (isspace c).
    + apply Forall_app. split; [|apply IH].
      unfold flush. destruct (truthy word) eqn:T; auto.
    + apply IH.
Qed.

Lemma whitespace_only_app (a b : string) :
  whitespace_only (a ++ b) = whitespace_only a && whitespace_only b.
Proof.
  induction a as [|c a IH]; simpl; [reflexivity|].
  rewrite IH. apply andb_assoc.
Qed.

(** The joined text of a side is blank exactly when the side has no
    argument or only blank ones. *)
Lemma whitespace_only_join (l : list string) :
  whitespace_only (join " " l) = forallb whitespace_only l.
Proof.
  unfold join. induction l as [|x l IH]; [reflexivity|].
  destruct l as [|y l].
  - simpl. rewrite andb_true_r. reflexivity.
  - change (String.concat " " (x :: y :: l))
      with (x ++ " " ++ String.concat " " (y :: l)).
    rewrite !whitespace_only_app, IH. reflexivity.
Qed.

End WordFacts.

Section JudgeProperties.
Import Py PyStr PyNum ml_judge Spec.

Variable sentiment_analyzer : string -> result (string * Q).
Variable Embedding : Type.
Variable encode : string -> result Embedding.
Variable cos_sim : Embedding -> Embedding -> Q.

Local Abbreviation score_argument :=
  (ml_judge.score_argument sentiment_analyzer).
Local Abbreviation compare_arguments :=
  (ml_judge.compare_arguments Embedding encode cos_sim).
Local Abbreviation evaluate_inputs :=
  (ml_judge.evaluate_inputs sentiment_analyzer Embedding encode cos_sim).
Local Abbreviation evaluate :=
  (ml_judge.evaluate sentiment_analyzer Embedding encode cos_sim).

Ltac qle_cases :=
  repeat match goal with
         | |- context [Qle_bool ?c ?x] =>
             let H := fresh "L" in
             destruct (Qle_bool c x) eqn:H;
             [apply Qle_bool_iff in H
             |apply not_true_iff_false in H; rewrite Qle_bool_iff in H;
              apply Qnot_le_lt in H]
         end.

Lemma rating_cases (x : Q) :
  (_rating x = Excellent /\ 85 <= x) \/
  (_rating x = Good /\ 70 <= x /\ x < 85) \/
  (_rating x = Fair /\ 50 <= x /\ x < 70) \/
  (_rating x = Poor /\ x < 50).
Proof. unfold _rating. qle_cases; intuition. Qed.

(** X1: the rating of a value is fixed by the thresholds 85, 70 and 50
    (Excellent from 85, Good from 70, Fair from 50, Poor below), it never
    decreases when the value increases, and equal values have the same
    rating. *)
Theorem rating_thresholds_and_monotone :
  (forall x, _rating x = Excellent <-> 85 <= x) /\
  (forall x, _rating x = Good <-> 70 <= x /\ x < 85) /\
  (forall x, _rating x = Fair <-> 50 <= x /\ x < 70) /\
  (forall x, _rating x = Poor <-> x < 50) /\
  (forall x y, x <= y ->
               (rating_rank (_rating x) <= rating_rank (_rating y))%nat) /\
  (forall x y, x == y -> _rating x = _rating y).
Proof.
  assert (T : forall x,
             (_rating x = Excellent <-> 85 <= x) /\
             (_rating x = Good <-> 70 <= x /\ x < 85) /\
             (_rating x = Fair <-> 50 <= x /\ x < 70) /\
             (_rating x = Poor <-> x < 50)).
  { intros x.
    destruct (rating_cases x) as [[E ?]|[[E ?]|[[E ?]|[E ?]]]]; rewrite E;
      repeat split; intros; try discriminate; try reflexivity;
      try tauto; exfalso; lra. }
  split; [apply T|]. split; [apply T|]. split; [apply T|].
  split; [apply T|]. split; intros x y H.
  - destruct (rating_cases x) as [[E ?]|[[E ?]|[[E ?]|[E ?]]]];
      destruct (rating_cases y) as [[F ?]|[[F ?]|[[F ?]|[F ?]]]];
      rewrite E, F; simpl; try lia; exfalso; lra.
  - destruct (rating_cases x) as [[E ?]|[[E ?]|[[E ?]|[E ?]]]];
      destruct (rating_cases y) as [[F ?]|[[F ?]|[[F ?]|[F ?]]]];
      rewrite E, F; try reflexivity; exfalso; lra.
Qed.

(** X2: the [length] an argument is scored with is 0 exactly when its text
    is blank, and then the score set is the all-zero one; a text that is
    not blank has at least one word. *)
Theorem length_zero_exactly_on_blank (text : string) (st : State) :
  exists r st',
    score_argument text st = (Ok r, st') /\
    (length r = 0%nat <-> whitespace_only text = true) /\
    (length r = 0%nat -> r = zero_scores) /\
    (whitespace_only text = false -> (1 <= length r)%nat).
Proof.
  destruct (whitespace_only text) eqn:H.
  - rewrite (score_argument_blank _ _ _ H). do 2 eexists.
    split; [reflexivity|]. simpl. repeat split; auto; discriminate.
  - rewrite (score_argument_nonblank _ _ _ H). do 2 eexists.
    split; [reflexivity|]. cbn [length].
    assert (N : List.length (split text) <> 0%nat).
    { intros Z. apply length_zero_iff_nil, split_nil in Z. congruence. }
    repeat split; intros; try contradiction; try discriminate; lia.
Qed.

Lemma rating_comp (x y : Q) : x == y -> _rating x = _rating y.
Proof.
  intros H.
  destruct (rating_cases x) as [[E ?]|[[E ?]|[[E ?]|[E ?]]]];
    destruct (rating_cases y) as [[F ?]|[[F ?]|[[F ?]|[F ?]]]];
    rewrite E, F; try reflexivity; exfalso; lra.
Qed.

Lemma sum_ge (l : list Q) (c : Q) :
  Forall (fun x => c <= x) l -> c * of_nat (List.length l) <= sum l.
Proof.
  induction 1 as [|x l Hx _ IH].
  - change (c * 0 <= 0). lra.
  - change (c * of_nat (S (List.length l)) <= x + sum l).
    assert (E : c * of_nat (S (List.length l))
                == c * of_nat (List.length l) + c).
    { unfold of_nat. rewrite Nat2Z.inj_succ, <- Z.add_1_r, inject_Z_plus.
      ring. }
    rewrite E. lra.
Qed.

Lemma mean_ge (l : list Q) (c : Q) :
  l <> [] -> Forall (fun x => c <= x) l -> c <= mean l.
Proof.
  intros N H. destruct l as [|x l]; [contradiction|].
  apply Qle_shift_div_l; [apply of_nat_length_pos|].
  apply sum_ge, H.
Qed.

(** X3: whatever the text, its clarity, vocabulary-richness and word-length
    scores lie between 0 and 100, and so does its sentiment score as soon as
    the score the classifier answers for the submitted text lies between 0
    and 1 (or the classifier fails). *)
Theorem subscores_between_0_and_100 (text : string) (st : State) :
  exists r st',
    score_argument text st = (Ok r, st') /\
    in_range (score (clarity r)) /\
    in_range (score (vocab_richness r)) /\
    in_range (score (avg_word_len r)) /\
    ((forall label s,
         sentiment_analyzer (slice_to 512 text) = Ok (label, s) ->
         0 <= s /\ s <= 1) ->
     in_range (score (sentiment r))).
Proof.
  destruct (whitespace_only text) eqn:H.
  - rewrite (score_argument_blank _ _ _ H). do 2 eexists.
    split; [reflexivity|]. simpl. unfold in_range.
    repeat split; intros; lra.
  - rewrite (score_argument_nonblank _ _ _ H). do 2 eexists.
    split; [reflexivity|]. cbn [clarity vocab_richness avg_word_len sentiment
                                score].
    split; [apply clarity_pct_in_range|].
    split; [apply vocab_pct_in_range|].
    split; [apply avg_word_len_score_in_range|].
    intros C. apply round1_in_range. unfold signed_sentiment.
    destruct (sentiment_analyzer (slice_to 512 text)) as [[label s]|e] eqn:A.
    + destruct (C _ _ eq_refl) as [L U].
      destruct (String.eqb _ _); split; lra.
    + split; lra.
Qed.

Lemma blank_has_no_run_on (text : string) :
  whitespace_only text = true -> Qltb 30 (avg_wps text) = false.
Proof.
  intros H. apply split_nil in H. unfold avg_wps. rewrite H. reflexivity.
Qed.

(** X4: a text whose sentences average more than 30 words is never scored
    above 60 for clarity, so its clarity is never rated Good or
    Excellent. *)
Theorem run_on_clarity_at_most_fair (text : string) (st : State) :
  Qltb 30 (avg_wps text) = true ->
  exists r st',
    score_argument text st = (Ok r, st') /\
    0 <= score (clarity r) /\ score (clarity r) <= 60 /\
    (rating (clarity r) = Poor \/ rating (clarity r) = Fair).
Proof.
  intros W.
  assert (H : whitespace_only text = false).
  { destruct (whitespace_only text) eqn:B; [|reflexivity].
    rewrite (blank_has_no_run_on _ B) in W. discriminate. }
  rewrite (score_argument_nonblank _ _ _ H). do 2 eexists.
  split; [reflexivity|]. cbn [clarity score rating].
  assert (U : clarity_pct text <= 60).
  { unfold clarity_pct. change 60 with (round1 60). apply round1_mono.
    unfold clarity_raw. rewrite W.
    set (q := of_nat (filler_count text) / max1 (List.length (split text))).
    assert (Q0 : 0 <= q)
      by (apply ratio_nonneg; [apply of_nat_nonneg | apply max1_pos]).
    assert (M0 : 0 <= Qmin 1 q) by (apply Q.min_glb; lra).
    lra. }
  split; [apply clarity_pct_in_range|]. split; [exact U|].
  destruct (rating_cases (clarity_pct text))
    as [[E ?]|[[E ?]|[[E ?]|[E ?]]]]; rewrite E; auto; exfalso; lra.
Qed.

(** X5: a text that is not blank is scored at least 10 and at most 100 for
    word length: every word has at least one character, and the score
    saturates at 100. *)
Theorem word_length_score_from_10_to_100 (text : string) (st : State) :
  whitespace_only text = false ->
  exists r st',
    score_argument text st = (Ok r, st') /\
    10 <= score (avg_word_len r) /\ score (avg_word_len r) <= 100.
Proof.
  intros H. rewrite (score_argument_nonblank _ _ _ H). do 2 eexists.
  split; [reflexivity|]. cbn [avg_word_len score].
  split; [|apply avg_word_len_score_in_range].
  unfold avg_word_len_score. apply Q.min_glb; [lra|].
  apply (round1_mono 10).
  assert (A : 1 <= avg_word_len_raw text).
  { unfold avg_word_len_raw.
    pose proof (split_from_words text EmptyString) as W.
    fold (split text) in W.
    destruct (split text) as [|w ws] eqn:S.
    - apply split_nil in S. congruence.
    - apply mean_ge; [discriminate|].
      apply Forall_map. eapply Forall_impl; [|exact W].
      intros a Ta. apply truthy_length in Ta.
      change 1 with (of_nat 1). apply of_nat_le. exact Ta. }
  lra.
Qed.

(** Over a list of arguments, an initialized judge calls the classifier
    once for each argument that is not blank, and stays initialized. *)
Lemma for_each_score_argument_run (args : list string) :
  forall st,
    _initialized st = true ->
    exists scores,
      for_each score_argument args st
      = (Ok scores, mkState true (calls st ++ sentiment_calls args)) /\
      List.length scores = List.length args.
Proof.
  induction args as [|a args IH]; intros [i cs] I; simpl in I; subst i.
  - exists []. unfold sentiment_calls. simpl. rewrite app_nil_r. auto.
  - cbn [for_each]. unfold bind.
    destruct (whitespace_only a) eqn:H.
    + rewrite (score_argument_blank _ _ _ H).
      destruct (IH (mkState true cs) eq_refl) as (scores & E & L).
      cbn [calls] in *. rewrite E. unfold ret.
      exists (zero_scores :: scores). unfold sentiment_calls in *.
      cbn [filter]. rewrite H. cbn [negb]. split; [reflexivity|].
      simpl. lia.
    + rewrite (score_argument_nonblank _ _ _ H). cbv zeta.
      destruct (IH (mkState true (cs ++ [sentiment_call (slice_to 512 a)]))
                   eq_refl) as (scores & E & L).
      cbn [calls] in *. rewrite E. unfold ret.
      eexists (_ :: scores). unfold sentiment_calls in *.
      cbn [filter]. rewrite H. cbn [negb map].
      rewrite <- app_assoc. split; [reflexivity|]. simpl. lia.
Qed.

(** A side whose arguments are all blank is scored with zero sets only, and
    the judge makes no call. *)
Lemma for_each_score_argument_blank (args : list string) (st : State) :
  _initialized st = true ->
  forallb whitespace_only args = true ->
  for_each score_argument args st
  = (Ok (repeat zero_scores (List.length args)), st).
Proof.
  destruct st as [i cs]. simpl. intros I; subst i.
  induction args as [|a args IH]; intros H; [reflexivity|].
  simpl in H. apply andb_true_iff in H as [Ha Hr].
  cbn [for_each]. unfold bind. rewrite (score_argument_blank _ _ _ Ha).
  cbn [calls]. rewrite (IH Hr). reflexivity.
Qed.

Lemma compare_arguments_run (args_a args_b : list string) (st : State) :
  match compare_arguments args_a args_b st with
  | (Ok _, st') =>
      st' = mkState true (calls st ++ encode_calls args_a args_b)
  | (Raise _, st') =>
      whitespace_only (join " " args_a) = false /\
      whitespace_only (join " " args_b) = false /\
      exists k, (k = 1 \/ k = 2)%nat /\
        st' = mkState true
                (calls st ++ firstn k [encode_call (join " " args_a);
                                       encode_call (join " " args_b)])
  end.
Proof.
  unfold encode_calls.
  destruct (whitespace_only (join " " args_a)) eqn:Ha.
  - rewrite compare_arguments_blank by (rewrite Ha; reflexivity).
    simpl. rewrite app_nil_r. reflexivity.
  - destruct (whitespace_only (join " " args_b)) eqn:Hb.
    + rewrite compare_arguments_blank by (rewrite Ha, Hb; reflexivity).
      simpl. rewrite app_nil_r. reflexivity.
    + rewrite (compare_arguments_nonblank _ _ _ _ _ _ Ha Hb).
      destruct (encode (join " " args_a)) as [ea|xa].
      * cbv zeta. destruct (encode (join " " args_b)) as [eb|xb].
        -- simpl. rewrite <- app_assoc. reflexivity.
        -- repeat split. exists 2%nat. split; [auto|].
           simpl. rewrite <- app_assoc. reflexivity.
      * repeat split. exists 1%nat. split; [auto|]. reflexivity.
Qed.

(** What [evaluate] is made of. *)
Lemma evaluate_steps (args_a args_b : list string) (st : State) :
  exists scores_a scores_b,
    List.length scores_a = List.length args_a /\
    List.length scores_b = List.length args_b /\
    for_each score_argument args_a (mkState true (calls st))
    = (Ok scores_a, mkState true (calls st ++ sentiment_calls args_a)) /\
    for_each score_argument args_b
             (mkState true (calls st ++ sentiment_calls args_a))
    = (Ok scores_b,
       mkState true ((calls st ++ sentiment_calls args_a)
                     ++ sentiment_calls args_b)) /\
    evaluate args_a args_b st
    = match compare_arguments
              args_a args_b
              (mkState true ((calls st ++ sentiment_calls args_a)
                             ++ sentiment_calls args_b)) with
      | (Ok coh, st') =>
          (Ok (verdict_of (avg_scores scores_a) (avg_scores scores_b) coh),
           st')
      | (Raise e, st') => (Raise e, st')
      end.
Proof.
  destruct (for_each_score_argument_run args_a (mkState true (calls st))
                                        eq_refl) as (sa & Ea & La).
  cbn [calls] in Ea.
  destruct (for_each_score_argument_run
              args_b (mkState true (calls st ++ sentiment_calls args_a))
              eq_refl) as (sb & Eb & Lb).
  cbn [calls] in Eb.
  exists sa, sb. split; [exact La|]. split; [exact Lb|].
  split; [exact Ea|]. split; [exact Eb|].
  unfold ml_judge.evaluate, ml_judge.evaluate_inputs, bind.
  rewrite ensure_initialized_run, Ea, Eb.
  destruct (compare_arguments _ _ _) as [[coh|e] s3]; reflexivity.
Qed.


Lemma avg_scores_of_zero_sets (n : nat) (m : Metric) :
  get (avg_scores (repeat zero_scores n)) m == 0.
Proof.
  assert (G : forall scores,
             get (avg_scores scores) m
             = match scores with
               | [] => 0
               | _ => mean (map (fun s => score (item s m)) scores)
               end) by (intros; destruct m; reflexivity).
  rewrite G. destruct n as [|n]; [reflexivity|].
  change (repeat zero_scores (S n))
    with (zero_scores :: repeat zero_scores n).
  assert (F : Forall (fun x => x <= 0 /\ 0 <= x)
                     (map (fun s => score (item s m))
                          (zero_scores :: repeat zero_scores n))).
  { apply Forall_map, Forall_forall. intros r I.
    assert (R : r = zero_scores).
    { destruct I as [<-|I]; [reflexivity|].
      apply repeat_spec in I. exact I. }
    subst r. destruct m; simpl; split; lra. }
  apply Qle_antisym.
  - apply mean_le; [discriminate|].
    eapply Forall_impl; [|exact F]. intros a [L _]; exact L.
  - apply mean_nonneg; [discriminate|].
    eapply Forall_impl; [|exact F]. intros a [_ U]; exact U.
Qed.

Lemma zero_side_of_verdict (avg : ByMetric Q) :
  (forall m, get avg m == 0) ->
  for_metrics (fun m => mkSubScore (round1 (get avg m)) (_rating (get avg m)))
  = mkByMetric (mkSubScore 0 Poor) (mkSubScore 0 Poor)
               (mkSubScore 0 Poor) (mkSubScore 0 Poor)
  /\ round1 (total_score 0 avg) = 0.
Proof.
  intros Z. split.
  - unfold for_metrics.
    rewrite (round1_comp _ _ (Z M_sentiment)), (rating_comp _ _ (Z M_sentiment)).
    rewrite (round1_comp _ _ (Z M_clarity)), (rating_comp _ _ (Z M_clarity)).
    rewrite (round1_comp _ _ (Z M_vocab_richness)),
            (rating_comp _ _ (Z M_vocab_richness)).
    rewrite (round1_comp _ _ (Z M_avg_word_len)),
            (rating_comp _ _ (Z M_avg_word_len)).
    reflexivity.
  - rewrite (round1_comp _ 0); [reflexivity|].
    unfold total_score.
    rewrite (Z M_sentiment), (Z M_clarity), (Z M_vocab_richness),
            (Z M_avg_word_len).
    reflexivity.
Qed.

Lemma sentiment_calls_blank (args : list string) :
  forallb whitespace_only args = true -> sentiment_calls args = [].
Proof.
  unfold sentiment_calls. induction args as [|a args IH]; [reflexivity|].
  simpl. intros H. apply andb_true_iff in H as [Ha Hr].
  rewrite Ha. simpl. exact (IH Hr).
Qed.


Lemma total_score_in_range (coh : Q) (avg : ByMetric Q) :
  (forall m, in_range (get avg m)) -> in_range coh ->
  in_range (total_score coh avg).
Proof.
  intros A [C0 C1].
  destruct (A M_sentiment) as [S0 S1]. destruct (A M_clarity) as [K0 K1].
  destruct (A M_vocab_richness) as [V0 V1].
  destruct (A M_avg_word_len) as [W0 W1].
  unfold total_score, in_range. split; lra.
Qed.

(** The coherence is 0 or a cosine similarity as a percentage. *)
Lemma compare_arguments_value (args_a args_b : list string) (st st' : State)
      (coh : Q) :
  compare_arguments args_a args_b st = (Ok coh, st') ->
  coh = 0 \/ exists ea eb, coh = round1 (cos_sim ea eb * 100).
Proof.
  destruct (whitespace_only (join " " args_a)
            || whitespace_only (join " " args_b)) eqn:B.
  - rewrite (compare_arguments_blank _ _ _ _ _ _ B).
    intros E; inversion E; auto.
  - apply orb_false_iff in B as [Ha Hb].
    rewrite (compare_arguments_nonblank _ _ _ _ _ _ Ha Hb).
    destruct (encode (join " " args_a)) as [ea|xa]; [|discriminate].
    cbv zeta. destruct (encode (join " " args_b)) as [eb|xb]; [|discriminate].
    intros E; inversion E; subst. right; eauto.
Qed.

(** X8: when the classifier answers scores between 0 and 1 and the cosine
    similarity of two embeddings lies between 0 and 1, everything a verdict
    reports lies between 0 and 100: the coherence, the two totals and the
    four averaged scores of each side. *)
Theorem verdict_scores_between_0_and_100 (args_a args_b : list string)
        (st st' : State) (v : Verdict) :
  (forall text label s,
      sentiment_analyzer text = Ok (label, s) -> 0 <= s /\ s <= 1) ->
  (forall a b, 0 <= cos_sim a b /\ cos_sim a b <= 1) ->
  evaluate args_a args_b st = (Ok v, st') ->
  in_range (score (coherence v)) /\
  in_range (side_A (totals v)) /\
  in_range (side_B (totals v)) /\
  forall m,
    in_range (score (get (side_A (scores v)) m)) /\
    in_range (score (get (side_B (scores v)) m)).
Proof.
  intros HC HS EV.
  destruct (evaluate_steps args_a args_b st)
    as (sa & sb & _ & _ & Ea & Eb & E).
  rewrite E in EV.
  destruct (compare_arguments _ _ _) as [[coh|e] s3] eqn:EC; [|discriminate].
  inversion EV; subst v st'. clear EV.
  assert (C : in_range coh).
  { destruct (compare_arguments_value _ _ _ _ _ EC) as [->|(ea & eb & ->)].
    - split; lra.
    - apply round1_in_range. destruct (HS ea eb). split; lra. }
  assert (A : forall m, in_range (get (avg_scores sa) m)).
  { intros m. apply avg_scores_in_range.
    eapply for_each_score_argument_in_range; eassumption. }
  assert (B : forall m, in_range (get (avg_scores sb) m)).
  { intros m. apply avg_scores_in_range.
    eapply for_each_score_argument_in_range; eassumption. }
  destruct (verdict_ratings (avg_scores sa) (avg_scores sb) coh) as [_ R].
  cbv zeta in R.
  split; [exact C|].
  split; [apply round1_in_range, total_score_in_range; assumption|].
  split; [apply round1_in_range, total_score_in_range; assumption|].
  intros m. destruct (R m) as [RA RB]. rewrite RA, RB. cbn [score].
  split; apply round1_in_range; [apply A | apply B].
Qed.

End JudgeProperties.

(* ===================================================================== *)
(** ** Further properties of the analyzer *)
(* ===================================================================== *)

Lemma in_firstn {X} (n : nat) (l : list X) (y : X) :
  In y (firstn n l) -> In y l.
Proof.
  revert l. induction n as [|n IH]; intros [|x l]; simpl; auto;
    try contradiction.
  intros [E|H]; [left; exact E | right; apply IH, H].
Qed.

Section SortingFacts.
Import PyNum advanced_ai Spec.

Context {X : Type} (key : X -> Q).

Lemma insert_desc_in (x y : X) (l : list X) :
  In y (insert_desc key x l) <-> y = x \/ In y l.
Proof.
  induction l as [|z l IH]; simpl.
  - intuition.
  - destruct (Qle_bool (key z) (key x)); simpl; [intuition|].
    rewrite IH. intuition.
Qed.

Lemma sorted_desc_in (y : X) (l : list X) :
  In y (sorted_desc key l) <-> In y l.
Proof.
  unfold sorted_desc. induction l as [|x l IH]; simpl; [tauto|].
  rewrite insert_desc_in, IH. intuition.
Qed.

Lemma insert_desc_length (x : X) (l : list X) :
  List.length (insert_desc key x l) = S (List.length l).
Proof.
  induction l as [|z l IH]; simpl; [reflexivity|].
  destruct (Qle_bool (key z) (key x)); simpl; [reflexivity|].
  rewrite IH. reflexivity.
Qed.

Lemma sorted_desc_length (l : list X) :
  List.length (sorted_desc key l) = List.length l.
Proof.
  unfold sorted_desc. induction l as [|x l IH]; simpl; [reflexivity|].
  rewrite insert_desc_length, IH. reflexivity.
Qed.

Lemma insert_desc_decreasing (x : X) (l : list X) :
  decreasing key l -> decreasing key (insert_desc key x l).
Proof.
  induction l as [|z l IH]; simpl.
  - intros _. split; [intros y []|exact I].
  - intros [Hz Hl]. destruct (Qle_bool (key z) (key x)) eqn:L.
    + apply Qle_bool_iff in L. simpl. split; [|split; assumption].
      intros y [<-|Hy]; [exact L|].
      eapply Qle_trans; [apply Hz, Hy | exact L].
    + assert (L' : key x < key z).
      { apply Qnot_le_lt. intros C. apply Qle_bool_iff in C. congruence. }
      simpl. split; [|apply IH, Hl].
      intros y Hy. apply insert_desc_in in Hy as [->|Hy];
        [apply Qlt_le_weak, L' | apply Hz, Hy].
Qed.

Lemma sorted_desc_decreasing (l : list X) :
  decreasing key (sorted_desc key l).
Proof.
  unfold sorted_desc. induction l as [|x l IH]; simpl; [exact I|].
  apply insert_desc_decreasing, IH.
Qed.

Lemma firstn_decreasing (n : nat) (l : list X) :
  decreasing key l -> decreasing key (firstn n l).
Proof.
  revert l. induction n as [|n IH]; intros [|x l]; simpl; auto.
  intros [Hx Hl]. split; [|apply IH, Hl].
  intros y Hy. apply Hx. eapply in_firstn; eassumption.
Qed.

End SortingFacts.

Section CounterFacts.
Import advanced_ai Spec.

Lemma count_of_count_in (c : list (string * nat)) (x k : string) :
  count_of (count_in c x) k
  = (count_of c k + if String.eqb x k then 1 else 0)%nat.
Proof.
  induction c as [|[k' n] c IH]; simpl.
  - destruct (String.eqb x k); reflexivity.
  - destruct (String.eqb k' x) eqn:E; simpl.
    + apply String.eqb_eq in E. subst k'.
      destruct (String.eqb x k); lia.
    + destruct (String.eqb k' k) eqn:F; [|exact IH].
      apply String.eqb_eq in F. subst k'.
      rewrite String.eqb_sym, E. lia.
Qed.

Lemma count_in_keys (c : list (string * nat)) (x : string) :
  NoDup (map fst c) ->
  NoDup (map fst (count_in c x)) /\
  (forall k, In k (map fst (count_in c x)) <-> k = x \/ In k (map fst c)).
Proof.
  induction c as [|[k' n] c IH]; simpl; intros N.
  - split; [constructor; [intros []|constructor]|]. intuition.
  - inversion N as [|? ? Nk Nc]; subst.
    destruct (String.eqb k' x) eqn:E; simpl.
    + apply String.eqb_eq in E. subst k'. split; [exact N|]. intuition.
    + destruct (IH Nc) as [N' I']. split.
      * constructor; [|exact N']. rewrite I'. intros [->|H]; [|contradiction].
        rewrite String.eqb_refl in E. discriminate.
      * intros k. rewrite I'. intuition.
Qed.

Lemma count_in_positive (c : list (string * nat)) (x : string) :
  Forall (fun kv => (1 <= snd kv)%nat) c ->
  Forall (fun kv => (1 <= snd kv)%nat) (count_in c x).
Proof.
  induction 1 as [|[k n] c Hk Hc IH]; simpl.
  - constructor; [simpl; lia | constructor].
  - destruct (String.eqb k x); constructor; simpl in *; auto.
Qed.

Lemma count_in_length (c : list (string * nat)) (x : string) :
  (List.length c <= List.length (count_in c x) <= S (List.length c))%nat /\
  (1 <= List.length (count_in c x))%nat.
Proof.
  induction c as [|[k n] c IH]; simpl; [lia|].
  destruct (String.eqb k x); simpl; lia.
Qed.

Lemma count_of_in (c : list (string * nat)) (k : string) (n : nat) :
  NoDup (map fst c) -> In (k, n) c -> count_of c k = n.
Proof.
  induction c as [|[k' n'] c IH]; simpl; [intros _ []|].
  intros N [E|I]; inversion N as [|? ? Nk Nc]; subst.
  - inversion E; subst. rewrite String.eqb_refl. reflexivity.
  - destruct (String.eqb k' k) eqn:F; [|apply IH; assumption].
    apply String.eqb_eq in F. subst k'. exfalso. apply Nk.
    change k with (fst (k, n)). apply in_map, I.
Qed.

(** What [Counter(l)] holds: each label once, with the number of its
    occurrences. *)
Lemma Counter_spec (l : list string) :
  NoDup (map fst (Counter l)) /\
  Forall (fun kv => (1 <= snd kv)%nat) (Counter l) /\
  (forall k, count_of (Counter l) k = count_occ string_dec l k) /\
  (List.length (Counter l) <= List.length l)%nat /\
  (l <> [] -> (1 <= List.length (Counter l))%nat).
Proof.
  unfold Counter.
  assert (G : forall c,
             NoDup (map fst c) ->
             Forall (fun kv => (1 <= snd kv)%nat) c ->
             NoDup (map fst (fold_left count_in l c)) /\
             Forall (fun kv => (1 <= snd kv)%nat) (fold_left count_in l c) /\
             (forall k, count_of (fold_left count_in l c) k
                        = (count_of c k + count_occ string_dec l k)%nat) /\
             (List.length c <= List.length (fold_left count_in l c)
              <= List.length c + List.length l)%nat /\
             (l <> [] -> (1 <= List.length (fold_left count_in l c))%nat)).
  { induction l as [|x l IH]; intros c N P; simpl.
    - split; [exact N|]. split; [exact P|].
      split; [intros; lia|]. split; [lia|]. intros H; now elim H.
    - destruct (IH (count_in c x) (proj1 (count_in_keys c x N))
                   (count_in_positive c x P)) as (N' & P' & C' & L' & _).
      pose proof (count_in_length c x) as Lc.
      split; [exact N'|]. split; [exact P'|].
      split; [|split; [lia | intros _; lia]].
      intros k. rewrite C', count_of_count_in.
      destruct (string_dec x k) as [->|D].
      + rewrite String.eqb_refl. lia.
      + apply String.eqb_neq in D. rewrite D. lia. }
  destruct (G [] (NoDup_nil _) (Forall_nil _)) as (N & P & C & L & E).
  split; [exact N|]. split; [exact P|]. split; [exact C|].
  split; [simpl in L; lia | exact E].
Qed.

End CounterFacts.

Section AnalyzerProperties.
Import Py PyNum advanced_ai Spec.

Variable emotion_classifier : option (string -> result (list (string * Q))).
Variable Embedding : Type.
Variable sentence_model :
  option (string -> string -> result (Embedding * Embedding)).
Variable cosine : Embedding -> Embedding -> Q.

Local Abbreviation analyze_argument_emotion :=
  (advanced_ai.analyze_argument_emotion emotion_classifier).
Local Abbreviation calculate_argument_similarity :=
  (advanced_ai.calculate_argument_similarity Embedding sentence_model cosine).
Local Abbreviation analyze_debate_dynamics :=
  (advanced_ai.analyze_debate_dynamics emotion_classifier Embedding
                                       sentence_model cosine).
Local Abbreviation pair_similarity :=
  (Spec.pair_similarity Embedding sentence_model cosine).
Local Abbreviation emotion_of := (Spec.emotion_of emotion_classifier).

(** X9: when the emotion classifier answers at least one label for a text,
    the emotion returned is a label of the answer whose score no other label
    exceeds, with that score as confidence; [emotions] lists at most three
    entries of the answer by decreasing score, the returned one first.  When
    the classifier is not loaded, raises or answers no label, the result is
    neutral with confidence 0.5 and no entry. *)
Theorem emotion_is_the_top_score (text : string) :
  (forall classify result,
      emotion_classifier = Some classify ->
      classify text = Ok result ->
      result <> [] ->
      let r := analyze_argument_emotion text in
      In (emotion r, confidence r) result /\
      (forall p, In p result -> snd p <= confidence r) /\
      List.length (emotions r) = Nat.min 3 (List.length result) /\
      hd_error (emotions r) = Some (emotion r, confidence r) /\
      decreasing snd (emotions r) /\
      (forall p, In p (emotions r) -> In p result)) /\
  ((emotion_classifier = None \/
    exists classify,
      emotion_classifier = Some classify /\
      ((exists e, classify text = Raise e) \/ classify text = Ok [])) ->
   analyze_argument_emotion text = mkEmotion "neutral" (1 # 2) []).
Proof.
  split.
  - intros classify result C R N. unfold advanced_ai.analyze_argument_emotion.
    rewrite C, R.
    pose proof (sorted_desc_decreasing snd result) as D.
    pose proof (sorted_desc_length snd result) as L.
    pose proof (fun y => sorted_desc_in snd y result) as I.
    destruct (sorted_desc snd result) as [|[label s] rest] eqn:S.
    { destruct result; [contradiction | discriminate]. }
    cbv zeta. cbn [emotion confidence emotions].
    split; [apply I; left; reflexivity|].
    split.
    { intros p Hp. apply I in Hp. destruct Hp as [<-|Hp]; [apply Qle_refl|].
      destruct D as [D _]. apply (D p Hp). }
    split; [rewrite length_firstn, L; reflexivity|].
    split; [reflexivity|].
    split; [apply firstn_decreasing, D|].
    intros p Hp. apply I. eapply in_firstn; eassumption.
  - unfold advanced_ai.analyze_argument_emotion.
    intros [->|(classify & -> & [[e ->]| ->])]; reflexivity.
Qed.

Lemma getitem_raises (d : Dict) (key : string) (e : Exn) :
  getitem d key = Raise e -> e = KeyError key.
Proof.
  induction d as [|[k v] d IH]; simpl.
  - intros H; inversion H; reflexivity.
  - destruct (String.eqb k key); [discriminate | exact IH].
Qed.

Lemma dynamics_loop_raises (arguments : list Dict) :
  forall (prev : option Dict) (emotions : list string)
         (similarities : list Q),
    match prev with Some p => has_content p = true | None => True end ->
    forallb has_content arguments = false ->
    advanced_ai.dynamics_loop emotion_classifier Embedding sentence_model
                              cosine prev arguments emotions similarities
    = Raise (KeyError "content").
Proof.
  induction arguments as [|a rest IH]; intros prev emotions similarities P H;
    [discriminate|].
  cbn [advanced_ai.dynamics_loop]. simpl in H.
  destruct (has_content a) eqn:Ha.
  - rewrite (getitem_content a Ha). simpl in H.
    destruct prev as [p|].
    + rewrite (getitem_content p P). apply IH; assumption.
    + apply IH; assumption.
  - unfold has_content in Ha.
    destruct (getitem a "content") as [c|e] eqn:G; [discriminate|].
    rewrite (getitem_raises _ _ _ G). reflexivity.
Qed.

(** X10: the analyzer answers the empty dictionary for no argument, and
    raises KeyError for the key [content] as soon as one argument of the
    debate, wherever it stands, has no such key; the message of that error
    is the quoted key. *)
Theorem dynamics_need_content_everywhere :
  analyze_debate_dynamics [] = Ok None /\
  forall arguments,
    forallb has_content arguments = false ->
    analyze_debate_dynamics arguments = Raise (KeyError "content") /\
    str (KeyError "content") = "'content'".
Proof.
  split; [reflexivity|]. intros arguments H. split; [|reflexivity].
  unfold advanced_ai.analyze_debate_dynamics.
  destruct arguments as [|a rest]; [discriminate|].
  rewrite (dynamics_loop_raises (a :: rest) None [] [] I H). reflexivity.
Qed.

(** A run of the analyzer on arguments that all have a content. *)
Lemma analyze_debate_dynamics_run (a : Dict) (rest : list Dict) :
  forallb has_content (a :: rest) = true ->
  analyze_debate_dynamics (a :: rest)
  = let emotions := map emotion_of (a :: rest) in
    let similarities := map pair_similarity (adjacent_pairs (a :: rest)) in
    let avg_similarity := mean_or_zero similarities in
    Ok (Some (mkDynamics
                (List.length (a :: rest))
                (of_nat (List.length (Counter emotions))
                 / of_nat (List.length emotions))
                (most_common 3 (Counter emotions))
                avg_similarity
                (1 - avg_similarity)
                emotions)).
Proof.
  intros H. unfold advanced_ai.analyze_debate_dynamics.
  rewrite (dynamics_loop_collects emotion_classifier Embedding sentence_model
             cosine (a :: rest) None [] [] H).
  reflexivity.
Qed.

(** X11: on a debate whose arguments all have a content, the dynamics count
    every argument and give one emotion per argument, in order; the
    emotional diversity is above 0 and at most 1; at most three dominant
    emotions are listed, by decreasing count, each with the number of
    arguments that carry it, which is at least 1. *)
Theorem dynamics_counts (arguments : list Dict) :
  arguments <> [] ->
  forallb has_content arguments = true ->
  exists d,
    analyze_debate_dynamics arguments = Ok (Some d) /\
    total_arguments d = List.length arguments /\
    emotional_progression d = map emotion_of arguments /\
    0 < emotional_diversity d /\ emotional_diversity d <= 1 /\
    (List.length (dominant_emotions d) <= 3)%nat /\
    decreasing (fun kv => of_nat (snd kv)) (dominant_emotions d) /\
    (forall label n,
        In (label, n) (dominant_emotions d) ->
        n = count_occ string_dec (emotional_progression d) label /\
        (1 <= n)%nat).
Proof.
  intros N H. destruct arguments as [|a rest]; [contradiction|].
  rewrite (analyze_debate_dynamics_run a rest H). cbv zeta.
  eexists. split; [reflexivity|].
  cbn [total_arguments emotional_progression emotional_diversity
       dominant_emotions].
  set (emotions := map emotion_of (a :: rest)).
  destruct (Counter_spec emotions) as (ND & P & C & L & E).
  assert (NE : emotions <> []) by discriminate.
  specialize (E NE).
  assert (LE : (1 <= List.length emotions)%nat) by (simpl; lia).
  split; [reflexivity|]. split; [reflexivity|].
  split.
  { apply Qlt_shift_div_l.
    - unfold of_nat, Qlt. simpl. lia.
    - rewrite Qmult_0_l. unfold of_nat, Qlt. simpl. lia. }
  split.
  { apply Qle_shift_div_r.
    - unfold of_nat, Qlt. simpl. lia.
    - rewrite Qmult_1_l. apply of_nat_le. exact L. }
  split; [unfold most_common; apply firstn_le_length|].
  split; [unfold most_common; apply firstn_decreasing,
                              sorted_desc_decreasing|].
  intros label n I. unfold most_common in I.
  apply in_firstn, sorted_desc_in in I.
  split.
  - rewrite <- C. symmetry. apply count_of_in; assumption.
  - rewrite Forall_forall in P. apply (P _ I).
Qed.

(** X12: when the sentence model is not loaded, or raises on every pair,
    every similarity is 0: a debate whose arguments all have a content gets
    the average similarity 0 and the debate coherence 1, whatever was
    said. *)
Theorem dynamics_without_sentence_model (arguments : list Dict) :
  (sentence_model = None \/
   exists encode,
     sentence_model = Some encode /\
     forall text1 text2, exists e, encode text1 text2 = Raise e) ->
  arguments <> [] ->
  forallb has_content arguments = true ->
  exists d,
    analyze_debate_dynamics arguments = Ok (Some d) /\
    average_similarity d == 0 /\
    debate_coherence d == 1.
Proof.
  intros M N H. destruct arguments as [|a rest]; [contradiction|].
  rewrite (analyze_debate_dynamics_run a rest H). cbv zeta.
  eexists. split; [reflexivity|].
  cbn [average_similarity debate_coherence].
  assert (Z : forall p, pair_similarity p = 0).
  { intros p. unfold Spec.pair_similarity,
                     advanced_ai.calculate_argument_similarity.
    destruct M as [->|(encode & -> & R)]; [reflexivity|].
    destruct (R (content_of (fst p)) (content_of (snd p))) as [e ->].
    reflexivity. }
  assert (A : mean_or_zero (map pair_similarity (adjacent_pairs (a :: rest)))
              == 0).
  { unfold mean_or_zero.
    destruct (map pair_similarity (adjacent_pairs (a :: rest)))
      as [|x l] eqn:E; [reflexivity|].
    assert (F : Forall (fun x => x <= 0 /\ 0 <= x) (x :: l)).
    { rewrite <- E. apply Forall_map, Forall_forall. intros p _.
      rewrite Z. split; lra. }
    apply Qle_antisym.
    - apply mean_le; [discriminate|].
      eapply Forall_impl; [|exact F]. intros y [U _]; exact U.
    - apply mean_nonneg; [discriminate|].
      eapply Forall_impl; [|exact F]. intros y [_ U]; exact U. }
  split; [exact A|]. rewrite A. reflexivity.
Qed.

End AnalyzerProperties.

(* ===================================================================== *)
(** ** Structure, feedback and suggestions *)
(* ===================================================================== *)

Section StructureFacts.
Import PyStr PyNum advanced_ai Spec.

Lemma any_char_app (p : ascii -> bool) (a b : string) :
  any_char p (a ++ b) = any_char p a || any_char p b.
Proof.
  induction a as [|c a IH]; simpl; [reflexivity|].
  rewrite IH. apply orb_assoc.
Qed.

Lemma any_char_lstrip (p : ascii -> bool) (s : string) :
  any_char p s = false -> any_char p (lstrip s) = false.
Proof.
  induction s as [|c s IH]; simpl; [reflexivity|].
  intros H. apply orb_false_iff in H as [Hc Hs].
  destruct (isspace c); [apply IH, Hs|]. simpl. rewrite Hc, Hs. reflexivity.
Qed.

Lemma any_char_rstrip (p : ascii -> bool) (s : string) :
  any_char p s = false -> any_char p (rstrip s) = false.
Proof.
  induction s as [|c s IH]; simpl; [reflexivity|].
  intros H. apply orb_false_iff in H as [Hc Hs]. specialize (IH Hs).
  destruct (rstrip s) eqn:R.
  - destruct (isspace c); simpl; [reflexivity|]. rewrite Hc. reflexivity.
  - simpl in *. rewrite Hc. exact IH.
Qed.

Lemma any_char_strip (p : ascii -> bool) (s : string) :
  any_char p s = false -> any_char p (strip s) = false.
Proof. intros H. apply any_char_rstrip, any_char_lstrip, H. Qed.

(** No piece of a split holds a separator. *)
Lemma re_split_from_pieces (sep : ascii -> bool) (s : string) :
  forall cur in_run,
    any_char sep cur = false ->
    Forall (fun piece => any_char sep piece = false)
           (re_split_from sep s cur in_run).
Proof.
  induction s as [|c s IH]; intros cur in_run H; simpl.
  - constructor; [exact H | constructor].
  - destruct (sep c) eqn:S.
    + destruct in_run; [apply IH; reflexivity|].
      constructor; [exact H | apply IH; reflexivity].
    + apply IH. rewrite any_char_app, H. simpl. rewrite S. reflexivity.
Qed.

(** A text without separator is a single piece. *)
Lemma re_split_from_no_separator (sep : ascii -> bool) (s : string) :
  forall cur in_run,
    any_char sep s = false ->
    re_split_from sep s cur in_run = [cur ++ s].
Proof.
  induction s as [|c s IH]; intros cur in_run H; simpl.
  - assert (E : cur ++ EmptyString = cur)
      by (induction cur as [|d cur IHc]; simpl; [|rewrite IHc]; reflexivity).
    rewrite E. reflexivity.
  - simpl in H. apply orb_false_iff in H as [Hc Hs]. rewrite Hc.
    rewrite (IH _ _ Hs).
    assert (E : forall a, (a ++ String c EmptyString) ++ s = a ++ String c s)
      by (induction a as [|d a IHa]; simpl; [|rewrite IHa]; reflexivity).
    rewrite E. reflexivity.
Qed.

Lemma terminator_is_not_space (c : ascii) :
  is_terminator c = true -> isspace c = false.
Proof.
  unfold is_terminator. intros H.
  apply orb_true_iff in H as [H|H]; [apply orb_true_iff in H as [H|H]|];
    apply Ascii.eqb_eq in H; subst c; reflexivity.
Qed.

Lemma whitespace_only_no_terminator (s : string) :
  whitespace_only s = true -> any_char is_terminator s = false.
Proof.
  induction s as [|c s IH]; simpl; [reflexivity|].
  intros H. apply andb_true_iff in H as [Hc Hs]. rewrite (IH Hs).
  destruct (is_terminator c) eqn:T; [|reflexivity].
  rewrite (terminator_is_not_space _ T) in Hc. discriminate.
Qed.

(** The sentences of a text are not empty and hold no terminator. *)
Lemma structure_sentences_spec (text : string) :
  Forall (fun s => truthy s = true /\ any_char is_terminator s = false)
         (structure_sentences text).
Proof.
  unfold structure_sentences. apply Forall_map, Forall_forall.
  intros piece I. apply filter_In in I as [I T]. split; [exact T|].
  apply any_char_strip.
  pose proof (re_split_from_pieces is_terminator text EmptyString false
                                   eq_refl) as F.
  rewrite Forall_forall in F. apply F, I.
Qed.

(** A blank text has no sentence. *)
Lemma structure_sentences_blank (text : string) :
  whitespace_only text = true -> structure_sentences text = [].
Proof.
  intros H. unfold structure_sentences, re_split.
  rewrite (re_split_from_no_separator
             _ _ _ _ (whitespace_only_no_terminator _ H)).
  simpl. rewrite strip_truthy, H. reflexivity.
Qed.

Lemma existsb_filter_nonempty {X} (f : X -> bool) (l : list X) :
  existsb f l = true <-> filter f l <> [].
Proof.
  induction l as [|x l IH]; simpl.
  - split; [discriminate | intros H; now elim H].
  - destruct (f x); simpl; [|exact IH].
    split; [discriminate | reflexivity].
Qed.

Lemma existsb_pointwise {X} (f g : X -> bool) (l : list X) :
  (forall x, In x l -> f x = g x) -> existsb f l = existsb g l.
Proof.
  induction l as [|x l IH]; simpl; intros H; [reflexivity|].
  rewrite (H x) by auto. rewrite IH by auto. reflexivity.
Qed.

(** How one sentence is classified: by the first class, in the order
    evidence, conclusion, contrast, support, one of whose keywords occurs in
    the lower-cased sentence; the keywords found are those of that class
    only. *)
Lemma classify_sentence_cases (s : string) :
  let e := classify_sentence s (lower s) connectors in
  sentence e = s /\
  keywords_found e
  = filter (fun kw => contains (lower s) kw) (keywords_of (type e)) /\
  ((mentions "evidence" s = true /\ type e = "evidence") \/
   (mentions "evidence" s = false /\ mentions "conclusion" s = true /\
    type e = "conclusion") \/
   (mentions "evidence" s = false /\ mentions "conclusion" s = false /\
    mentions "contrast" s = true /\ type e = "contrast") \/
   (mentions "evidence" s = false /\ mentions "conclusion" s = false /\
    mentions "contrast" s = false /\ mentions "support" s = true /\
    type e = "support") \/
   (mentions "evidence" s = false /\ mentions "conclusion" s = false /\
    mentions "contrast" s = false /\ mentions "support" s = false /\
    type e = "statement")).
Proof.
  unfold connectors. cbn [classify_sentence].
  change (existsb (fun keyword => contains (lower s) keyword)
            ["because"; "since"; "due to"; "evidence shows";
             "studies indicate"])
    with (mentions "evidence" s).
  change (existsb (fun keyword => contains (lower s) keyword)
            ["therefore"; "thus"; "hence"; "in conclusion"; "as a result"])
    with (mentions "conclusion" s).
  change (existsb (fun keyword => contains (lower s) keyword)
            ["however"; "but"; "nevertheless"; "on the other hand";
             "despite"])
    with (mentions "contrast" s).
  change (existsb (fun keyword => contains (lower s) keyword)
            ["furthermore"; "moreover"; "additionally"; "also";
             "in addition"])
    with (mentions "support" s).
  destruct (mentions "evidence" s) eqn:E;
    [cbv zeta; repeat split; auto|].
  destruct (mentions "conclusion" s) eqn:C;
    [cbv zeta; repeat split; auto 6|].
  destruct (mentions "contrast" s) eqn:K;
    [cbv zeta; repeat split; auto 8|].
  destruct (mentions "support" s) eqn:P;
    cbv zeta; repeat split; auto 10.
Qed.

End StructureFacts.

Section StructureProperties.
Import Py PyStr PyNum advanced_ai Spec.

Lemma existsb_map_pointwise {X Y} (f : Y -> bool) (g : X -> Y)
      (h : X -> bool) (l : list X) :
  (forall x, In x l -> f (g x) = h x) ->
  existsb f (map g l) = existsb h l.
Proof.
  induction l as [|x l IH]; simpl; intros H; [reflexivity|].
  rewrite (H x) by auto. rewrite IH by auto. reflexivity.
Qed.

Local Abbreviation classify :=
  (fun s => classify_sentence s (lower s) connectors).

(** X13: the structure of a text has one element per sentence, in order;
    each sentence is not empty and holds no full stop, exclamation or
    question mark; each element is of one of the five kinds, lists exactly
    the keywords of its kind that occur in its lower-cased sentence, and is
    a plain statement exactly when it lists none.  A blank text has no
    sentence. *)
Theorem structure_elements_invariants (text : string) :
  let a := analyze_argument_structure text in
  sentence_count a = List.length (structure_elements a) /\
  map sentence (structure_elements a) = structure_sentences text /\
  Forall (fun e =>
            truthy (sentence e) = true /\
            any_char is_terminator (sentence e) = false /\
            In (type e) element_kinds /\
            keywords_found e
            = filter (fun kw => contains (lower (sentence e)) kw)
                     (keywords_of (type e)) /\
            (type e = "statement" <-> keywords_found e = []))
         (structure_elements a) /\
  (whitespace_only text = true -> sentence_count a = 0%nat).
Proof.
  cbv zeta. unfold analyze_argument_structure.
  cbn [sentence_count structure_elements].
  split; [rewrite length_map; reflexivity|].
  split.
  { rewrite map_map. rewrite <- (map_id (structure_sentences text)) at 2.
    apply map_ext. intros s. apply (classify_sentence_cases s). }
  split.
  { apply Forall_map.
    pose proof (structure_sentences_spec text) as F.
    eapply Forall_impl; [|exact F]. intros s [T N].
    destruct (classify_sentence_cases s) as (S & K & C). cbv zeta in *.
    rewrite S. split; [exact T|]. split; [exact N|].
    split; [|split; [exact K|]].
    - unfold element_kinds.
      destruct C as [[_ ->]|[(_ & _ & ->)|[(_ & _ & _ & ->)|
                    [(_ & _ & _ & _ & ->)|(_ & _ & _ & _ & ->)]]]];
        simpl; auto 6.
    - rewrite K.
      destruct C as [[M E]|[(_ & M & E)|[(_ & _ & M & E)|
                    [(_ & _ & _ & M & E)|(_ & _ & _ & _ & E)]]]];
        rewrite E;
        try (split; [discriminate|];
             intros Z; exfalso; revert Z;
             apply existsb_filter_nonempty; exact M).
      split; reflexivity. }
  intros H. rewrite (structure_sentences_blank _ H). reflexivity.
Qed.

(** X14: a text has evidence exactly when one of its sentences holds an
    evidence keyword; it has a conclusion exactly when one of its sentences
    holds a conclusion keyword and no evidence keyword: a sentence with both
    counts as evidence only. *)
Theorem evidence_hides_conclusion (text : string) :
  let a := analyze_argument_structure text in
  has_evidence a = existsb (mentions "evidence") (structure_sentences text) /\
  has_conclusion a
  = existsb (fun s => negb (mentions "evidence" s) && mentions "conclusion" s)
            (structure_sentences text).
Proof.
  cbv zeta. unfold analyze_argument_structure.
  cbn [has_evidence has_conclusion].
  split; apply existsb_map_pointwise; intros s _;
    destruct (classify_sentence_cases s) as (_ & _ & C); cbv zeta in C;
    destruct C as [[M1 E]|[(M1 & M2 & E)|[(M1 & M2 & M3 & E)|
                  [(M1 & M2 & M3 & M4 & E)|(M1 & M2 & M3 & M4 & E)]]]];
    rewrite E, ?M1, ?M2; reflexivity.
Qed.

Lemma mem_type (kind : string) (elements : list StructureElement) :
  mem kind (map type elements)
  = existsb (fun elem => String.eqb (type elem) kind) elements.
Proof.
  unfold mem. apply existsb_map_pointwise. intros e _. apply String.eqb_sym.
Qed.

Lemma statement_counted (elements : list StructureElement) :
  (0 <? count_occ string_dec (map type elements) "statement")%nat
  = mem "statement" (map type elements).
Proof.
  unfold mem. induction elements as [|e l IH]; [reflexivity|].
  cbn [map count_occ existsb].
  destruct (string_dec (type e) "statement") as [E|D].
  - rewrite E, String.eqb_refl. reflexivity.
  - rewrite IH. apply String.eqb_neq in D. rewrite String.eqb_sym in D.
    rewrite D. reflexivity.
Qed.

(** The score of a structure with at least one element is the sum of the
    bonuses of the kinds it has; the cap at 1 is reached only with all
    five. *)
Lemma flow_score_bonus (e : StructureElement)
      (elements : list StructureElement) :
  let types := map type (e :: elements) in
  _calculate_logical_flow_score (e :: elements)
  == flow_bonus (mem "evidence" types) (mem "conclusion" types)
                (mem "statement" types) (mem "contrast" types)
                (mem "support" types).
Proof.
  cbv zeta. unfold _calculate_logical_flow_score.
  rewrite statement_counted.
  destruct (mem "evidence" _), (mem "conclusion" _), (mem "statement" _),
    (mem "contrast" _), (mem "support" _); reflexivity.
Qed.

Lemma mem_in (x : string) (l : list string) : In x l -> mem x l = true.
Proof.
  intros I. unfold mem. apply existsb_exists. exists x.
  split; [exact I | apply String.eqb_refl].
Qed.

(** The score of a text by its number of sentences. *)
Lemma flow_score_of_text (text : string) :
  let a := analyze_argument_structure text in
  (sentence_count a = 0%nat ->
   logical_flow_score a = 0 /\ structure_elements a = [] /\
   has_evidence a = false /\ has_conclusion a = false) /\
  (sentence_count a <> 0%nat ->
   1 # 10 <= logical_flow_score a /\ logical_flow_score a <= 1) /\
  (7 # 10 < logical_flow_score a -> has_evidence a = true).
Proof.
  cbv zeta. unfold analyze_argument_structure.
  cbn [sentence_count logical_flow_score structure_elements has_evidence
       has_conclusion].
  destruct (structure_sentences text) as [|s l].
  - split; [intros _; repeat split|]. split; [intros N; now elim N|].
    simpl. intros H. exfalso. lra.
  - cbn [map].
    assert (K : In (type (classify_sentence s (lower s) connectors))
                   element_kinds).
    { destruct (classify_sentence_cases s) as (_ & _ & C). cbv zeta in C.
      unfold element_kinds.
      destruct C as [[_ ->]|[(_ & _ & ->)|[(_ & _ & _ & ->)|
                    [(_ & _ & _ & _ & ->)|(_ & _ & _ & _ & ->)]]]];
        simpl; auto 6. }
    set (e := classify_sentence s (lower s) connectors) in *.
    set (elements := map (fun sentence =>
                            classify_sentence sentence (lower sentence)
                                              connectors) l).
    pose proof (flow_score_bonus e elements) as B. cbv zeta in B.
    assert (T : mem (type e) (map type (e :: elements)) = true)
      by (apply mem_in; left; reflexivity).
    rewrite <- (mem_type "evidence" (e :: elements)).
    split; [discriminate|].
    rewrite B. unfold flow_bonus.
    split; [intros _|].
    + unfold element_kinds in K. simpl in K.
      destruct K as [K|[K|[K|[K|[K|[]]]]]]; rewrite <- K in T; rewrite T;
        destruct (mem "evidence" _), (mem "conclusion" _),
          (mem "statement" _), (mem "contrast" _), (mem "support" _);
        split; lra.
    + destruct (mem "evidence" _); [reflexivity|].
      destruct (mem "conclusion" _), (mem "statement" _),
        (mem "contrast" _), (mem "support" _); intros H; exfalso; lra.
Qed.

(** X15: the logical-flow score of a text is 0 when the text has no
    sentence, as a blank text has, and otherwise lies between 0.1 and 1; it
    exceeds 0.7 only for a text that has evidence, and a text of a single
    sentence without evidence keyword scores at most 0.2. *)
Theorem flow_score_bounds (text : string) :
  let a := analyze_argument_structure text in
  (whitespace_only text = true -> logical_flow_score a = 0) /\
  (sentence_count a = 0%nat -> logical_flow_score a = 0) /\
  (sentence_count a <> 0%nat ->
   1 # 10 <= logical_flow_score a /\ logical_flow_score a <= 1) /\
  (7 # 10 < logical_flow_score a -> has_evidence a = true) /\
  (sentence_count a = 1%nat -> has_evidence a = false ->
   logical_flow_score a <= 2 # 10).
Proof.
  cbv zeta. destruct (flow_score_of_text text) as (Z & B & E).
  cbv zeta in *.
  split.
  { intros H. apply Z.
    unfold analyze_argument_structure. cbn [sentence_count].
    rewrite (structure_sentences_blank _ H). reflexivity. }
  split; [intros H; apply Z, H|]. split; [exact B|]. split; [exact E|].
  unfold analyze_argument_structure.
  cbn [sentence_count logical_flow_score has_evidence].
  destruct (structure_sentences text) as [|s [|s' l]]; try discriminate.
  intros _. cbn [map existsb]. rewrite orb_false_r.
  destruct (classify_sentence_cases s) as (_ & _ & C). cbv zeta in C.
  destruct C as [[_ E1]|[(_ & _ & E1)|[(_ & _ & _ & E1)|
                [(_ & _ & _ & _ & E1)|(_ & _ & _ & _ & E1)]]]];
    unfold _calculate_logical_flow_score; cbn [map];
    rewrite E1; intros H; try discriminate H; vm_compute; discriminate.
Qed.

End StructureProperties.

Section FeedbackProperties.
Import Py PyStr PyNum advanced_ai Spec.

Variable emotion_classifier : option (string -> result (list (string * Q))).

Local Abbreviation analyze_argument_emotion :=
  (advanced_ai.analyze_argument_emotion emotion_classifier).
Local Abbreviation generate_argument_feedback :=
  (advanced_ai.generate_argument_feedback emotion_classifier).

Ltac branches :=
  repeat match goal with
         | |- context [if ?c then _ else _] => destruct c eqn:?
         end.

(** X16: the feedback carries the score it was given and the two analyses
    of the text; evidence, conclusion and logical flow each add one line,
    to the strengths or to the improvements, and the emotion adds one more
    exactly when its confidence exceeds 0.8 and it is joy, optimism, anger
    or disgust: three or four lines in all, and three when the emotion
    classifier is not loaded. *)
Theorem feedback_has_three_or_four_lines (text : string) (score : Q) :
  let f := generate_argument_feedback text score in
  let e := analyze_argument_emotion text in
  let lines := (List.length (strengths f) + List.length (improvements f))%nat in
  overall_score f = score /\
  emotion_feedback f = e /\
  structure_feedback f = analyze_argument_structure text /\
  (3 <= lines <= 4)%nat /\
  (lines = 4%nat <->
   ml_judge.Qltb (8 # 10) (confidence e)
   && (mem (emotion e) ["joy"; "optimism"]
       || mem (emotion e) ["anger"; "disgust"]) = true) /\
  (emotion_classifier = None -> lines = 3%nat).
Proof.
  cbv zeta. unfold advanced_ai.generate_argument_feedback.
  split; [branches; reflexivity|].
  split; [branches; reflexivity|].
  split; [branches; reflexivity|].
  split; [branches; simpl; lia|].
  split.
  - destruct (ml_judge.Qltb (8 # 10) (confidence _)),
      (mem (emotion _) ["joy"; "optimism"]),
      (mem (emotion _) ["anger"; "disgust"]);
      branches; simpl; split; intros; try lia; try discriminate;
      reflexivity.
  - intros N. unfold advanced_ai.analyze_argument_emotion. rewrite N.
    cbn [confidence emotion neutral].
    change (ml_judge.Qltb (8 # 10) (1 # 2)) with false.
    branches; reflexivity.
Qed.

Lemma no_evidence_no_excellent_flow (text : string) :
  has_evidence (analyze_argument_structure text) = false ->
  ml_judge.Qltb (7 # 10) (logical_flow_score (analyze_argument_structure text))
  = false.
Proof.
  intros H. destruct (flow_score_of_text text) as (_ & _ & E). cbv zeta in E.
  unfold ml_judge.Qltb.
  destruct (Qle_bool (logical_flow_score (analyze_argument_structure text))
                     (7 # 10)) eqn:L; [reflexivity|].
  assert (G : 7 # 10 < logical_flow_score (analyze_argument_structure text)).
  { apply Qnot_le_lt. intros C. apply Qle_bool_iff in C. congruence. }
  rewrite (E G) in H. discriminate.
Qed.

(** X17: the feedback praises the logical structure as excellent only for
    a text that has evidence: "Excellent logical structure and flow" never
    comes without "Good use of evidence to support your points", nor
    together with the advice to add evidence. *)
Theorem excellent_structure_needs_evidence (text : string) (score : Q) :
  let f := generate_argument_feedback text score in
  In "Excellent logical structure and flow" (strengths f) ->
  In "Good use of evidence to support your points" (strengths f) /\
  ~ In "Consider adding evidence or examples to strengthen your argument"
       (improvements f).
Proof.
  cbv zeta. unfold advanced_ai.generate_argument_feedback.
  destruct (has_evidence (analyze_argument_structure text)) eqn:HE.
  - intros _. branches; simpl; split; auto;
      intros H; repeat (destruct H as [H|H]; [discriminate H|]); exact H.
  - rewrite (no_evidence_no_excellent_flow _ HE).
    branches; simpl; intros H; exfalso;
      repeat (destruct H as [H|H]; [discriminate H|]); exact H.
Qed.

(** X18: three suggestions are returned for every argument, whatever the
    debate topic, which is not read; the last of the four general
    suggestions is never among them, and the third one only when the
    argument triggers no specific suggestion, in which case the three
    returned are the first three general ones. *)
Theorem three_suggestions (argument_text debate_topic : string) :
  let l := suggest_counter_arguments argument_text debate_topic in
  List.length l = 3%nat /\
  l = suggest_counter_arguments argument_text EmptyString /\
  ~ In "Draw on relevant examples or case studies" l /\
  (In "Highlight potential negative consequences" l <->
   l = ["Present alternative perspectives or interpretations";
        "Ask for evidence to support key claims";
        "Highlight potential negative consequences"]).
Proof.
  cbv zeta. unfold suggest_counter_arguments.
  split; [branches; reflexivity|]. split; [reflexivity|].
  split.
  - branches; simpl; intros H;
      repeat (destruct H as [H|H]; [discriminate H|]); exact H.
  - branches; simpl; split; intros H; try discriminate H; auto;
      repeat (destruct H as [H|H]; [discriminate H|]); try contradiction.
Qed.

End FeedbackProperties.

(* ===================================================================== *)
(** ** The other routes *)
(* ===================================================================== *)

Section RouteProperties.
Import Py PyStr PyNum ml_judge advanced_ai main Spec.

Variable sentiment_analyzer : string -> result (string * Q).
Variable emotion_classifier : option (string -> result (list (string * Q))).
Variable topic_classifier :
  option (string -> list string -> result (list string * list Q)).
Variable Embedding : Type.
Variable sentence_model :
  option (string -> string -> result (Embedding * Embedding)).
Variable cosine : Embedding -> Embedding -> Q.
Variable attribute_is_none : string -> bool.

Local Abbreviation analyze := (main.analyze sentiment_analyzer).
Local Abbreviation similarity_loop :=
  (main.similarity_loop Embedding sentence_model cosine).
Local Abbreviation advanced_analysis :=
  (main.advanced_analysis emotion_classifier topic_classifier Embedding
                          sentence_model cosine).
Local Abbreviation similarity_to :=
  (advanced_ai.calculate_argument_similarity Embedding sentence_model cosine).


(** X20: the health route raises on every request: it reads [judge.model],
    an attribute no [DebateJudge] has, and nothing in the route catches the
    AttributeError. *)
Theorem health_check_always_raises (st : State) :
  ~ In "model" DebateJudge_attributes /\
  health_check Embedding sentence_model attribute_is_none st
  = (Raise (AttributeError "'DebateJudge' object has no attribute 'model'"),
     st).
Proof.
  split; [|reflexivity].
  unfold DebateJudge_attributes. simpl.
  intros H. repeat (destruct H as [H|H]; [discriminate H|]). exact H.
Qed.

Lemma similarity_loop_dicts (text : string) (previous : list Json) :
  forall similarities,
    forallb is_dict previous = true ->
    similarity_loop text previous similarities
    = Ok (similarities
            ++ map (fun x => (get_or x "id" "",
                              similarity_to text (get_or x "content" "")))
                   previous)%list.
Proof.
  induction previous as [|x rest IH]; intros similarities H; simpl.
  - rewrite app_nil_r. reflexivity.
  - simpl in H. apply andb_true_iff in H as [Hx Hr].
    destruct x as [d|t]; [|discriminate]. cbn [json_get].
    rewrite (IH _ Hr). rewrite <- app_assoc. reflexivity.
Qed.

Lemma similarity_loop_other (text : string) (dicts : list Json)
      (type_name : string) (rest : list Json) :
  forall similarities,
    forallb is_dict dicts = true ->
    similarity_loop text (dicts ++ JOther type_name :: rest) similarities
    = Raise (AttributeError
               ("'" ++ type_name ++ "' object has no attribute 'get'")).
Proof.
  induction dicts as [|x dicts IH]; intros similarities H; simpl.
  - reflexivity.
  - simpl in H. apply andb_true_iff in H as [Hx Hr].
    destruct x as [d|t]; [|discriminate]. cbn [json_get].
    apply IH, Hr.
Qed.

Lemma last_n_length {X} (n : nat) (l : list X) :
  List.length (last_n n l) = Nat.min n (List.length l).
Proof. unfold last_n. rewrite length_skipn. lia. Qed.

Lemma last_n_nil {X} (n : nat) (l : list X) :
  (1 <= n)%nat -> last_n n l = [] -> l = [].
Proof.
  intros N H. apply (f_equal (@List.length X)) in H.
  rewrite last_n_length in H. simpl in H.
  destruct l; [reflexivity | simpl in H; lia].
Qed.

(** X21: when the last three previous arguments are dictionaries, the
    advanced-analysis route answers the emotion and structure analyses of
    the text; the topic analysis and the counter-suggestions are present
    exactly when a debate topic is given; the similarity analysis is
    present exactly when there are previous arguments, and then it compares
    the text with the last three of them only (with all of them when there
    are fewer), in order, each under its [id] (the empty string when it has
    none) and by its [content] (the empty string when it has none). *)
Theorem advanced_analysis_parts (text debate_topic : string)
        (previous_arguments : list Json) :
  forallb is_dict (last_n 3 previous_arguments) = true ->
  exists r,
    advanced_analysis text debate_topic previous_arguments = AdvancedOk r /\
    emotion_analysis r = analyze_argument_emotion emotion_classifier text /\
    structure_analysis r = analyze_argument_structure text /\
    (topic_analysis r = None <-> debate_topic = EmptyString) /\
    (counter_suggestions r = None <-> debate_topic = EmptyString) /\
    (similarity_analysis r = None <-> previous_arguments = []) /\
    (previous_arguments <> [] ->
     similarity_analysis r
     = Some (map (fun x => (get_or x "id" "",
                            similarity_to text (get_or x "content" "")))
                 (last_n 3 previous_arguments)) /\
     List.length (last_n 3 previous_arguments)
     = Nat.min 3 (List.length previous_arguments)).
Proof.
  intros H. unfold main.advanced_analysis.
  rewrite (similarity_loop_dicts text _ [] H). cbn [app].
  assert (T : forall X (a : X),
             (if truthy debate_topic then Some a else None) = None
             <-> debate_topic = EmptyString).
  { intros X a. destruct debate_topic; simpl; split; intros E;
      try reflexivity; discriminate. }
  destruct previous_arguments as [|x l].
  - eexists. split; [reflexivity|].
    cbn [emotion_analysis structure_analysis topic_analysis
         counter_suggestions similarity_analysis].
    split; [reflexivity|]. split; [reflexivity|].
    split; [apply T|]. split; [apply T|].
    split; [split; reflexivity|]. intros N; now elim N.
  - eexists. split; [reflexivity|].
    cbn [emotion_analysis structure_analysis topic_analysis
         counter_suggestions similarity_analysis].
    split; [reflexivity|]. split; [reflexivity|].
    split; [apply T|]. split; [apply T|].
    split; [split; intros E; discriminate|].
    intros _. split; [reflexivity | apply last_n_length].
Qed.

Lemma last_n_app_three {X} (earlier last3 : list X) :
  List.length last3 = 3%nat ->
  last_n 3 (earlier ++ last3) = last3 /\ last_n 3 last3 = last3.
Proof.
  intros L. unfold last_n. rewrite length_app, L. split.
  - replace (List.length earlier + 3 - 3)%nat with (List.length earlier)
      by lia.
    rewrite skipn_app, skipn_all, Nat.sub_diag. reflexivity.
  - reflexivity.
Qed.

(** X22: when one of the last three previous arguments is not a
    dictionary, the route answers the error of the first such one, that its
    type has no attribute [get], and no analysis.  What stands before the
    last three previous arguments is never looked at: the answer is the one
    for the last three alone. *)
Theorem advanced_analysis_reads_last_three (text debate_topic : string) :
  (forall previous_arguments dicts rest type_name,
      last_n 3 previous_arguments = (dicts ++ JOther type_name :: rest)%list ->
      forallb is_dict dicts = true ->
      advanced_analysis text debate_topic previous_arguments
      = AdvancedError
          ("'" ++ type_name ++ "' object has no attribute 'get'")) /\
  (forall earlier last3,
      List.length last3 = 3%nat ->
      advanced_analysis text debate_topic (earlier ++ last3)
      = advanced_analysis text debate_topic last3).
Proof.
  split.
  - intros previous_arguments dicts rest type_name L D.
    unfold main.advanced_analysis.
    rewrite L, (similarity_loop_other text dicts type_name rest [] D).
    destruct previous_arguments; [|reflexivity].
    destruct dicts; discriminate.
  - intros earlier last3 L.
    destruct (last_n_app_three earlier last3 L) as [E1 E2].
    unfold main.advanced_analysis. rewrite E1, E2.
    destruct last3 as [|x l]; [discriminate|].
    destruct (earlier ++ x :: l)%list eqn:Q; [|reflexivity].
    apply app_eq_nil in Q as [_ Q]. discriminate.
Qed.

End RouteProperties.

(* ===================================================================== *)
(** ** More of the judge, and concrete runs of the properties *)
(* ===================================================================== *)

Section MoreJudgeProperties.
Import Py PyStr PyNum ml_judge Spec.

Variable Embedding : Type.
Variable encode : string -> result Embedding.
Variable cos_sim : Embedding -> Embedding -> Q.



End MoreJudgeProperties.

Section PropertyRuns.
Import Py PyStr PyNum ml_judge advanced_ai main Spec Stubs.

Lemma run_on_clarity_at_most_fair_witness :
  exists r st',
    score_argument
      classifier_positive
      "a b c d e f g h i j k l m n o p q r s t u v w x y z a b c d e" fresh
    = (Ok r, st') /\
    0 <= score (clarity r) /\ score (clarity r) <= 60 /\
    (rating (clarity r) = Poor \/ rating (clarity r) = Fair).
Proof.
  apply (run_on_clarity_at_most_fair
           classifier_positive
           "a b c d e f g h i j k l m n o p q r s t u v w x y z a b c d e"
           fresh).
  reflexivity.
Defined.

Lemma word_length_score_from_10_to_100_witness :
  exists r st',
    score_argument classifier_down "a fair point" fresh = (Ok r, st') /\
    10 <= score (avg_word_len r) /\ score (avg_word_len r) <= 100.
Proof.
  apply (word_length_score_from_10_to_100 classifier_down "a fair point"
                                          fresh).
  reflexivity.
Defined.

Lemma verdict_scores_between_0_and_100_witness :
  match evaluate classifier_positive unit encode_unit cos_zero
                 ["a fair point"; "um"] ["not so"] fresh with
  | (Ok v, _) => in_range (side_A (totals v)) /\ in_range (side_B (totals v))
  | (Raise _, _) => False
  end.
Proof.
  assert (H1 : forall text label s,
             classifier_positive text = Ok (label, s) -> 0 <= s /\ s <= 1).
  { intros text label s E. inversion E; subst. split; lra. }
  assert (H2 : forall a b, 0 <= cos_zero a b /\ cos_zero a b <= 1).
  { intros a b. unfold cos_zero. split; lra. }
  destruct (evaluate classifier_positive unit encode_unit cos_zero
                     ["a fair point"; "um"] ["not so"] fresh)
    as [[v|e] st'] eqn:E.
  - destruct (verdict_scores_between_0_and_100
                classifier_positive unit encode_unit cos_zero
                ["a fair point"; "um"] ["not so"] fresh st' v H1 H2 E)
      as (_ & A & B & _).
    split; [exact A | exact B].
  - vm_compute in E. discriminate E.
Defined.



Lemma dynamics_counts_witness :
  exists d,
    analyze_debate_dynamics emotion_four unit sentence_unit cosine_quarter
                            debate
    = Ok (Some d) /\
    total_arguments d = 3%nat /\
    (List.length (dominant_emotions d) <= 3)%nat.
Proof.
  destruct (dynamics_counts emotion_four unit sentence_unit cosine_quarter
                            debate)
    as (d & E & T & _ & _ & _ & L & _); [discriminate | reflexivity |].
  exists d. split; [exact E|]. split; [exact T | exact L].
Defined.

Lemma dynamics_without_sentence_model_witness :
  exists d,
    analyze_debate_dynamics emotion_four unit sentence_none cosine_quarter
                            debate
    = Ok (Some d) /\
    average_similarity d == 0 /\ debate_coherence d == 1.
Proof.
  apply (dynamics_without_sentence_model
           emotion_four unit sentence_none cosine_quarter debate).
  - left. reflexivity.
  - discriminate.
  - reflexivity.
Defined.

Lemma excellent_structure_needs_evidence_witness :
  In "Good use of evidence to support your points"
     (strengths (generate_argument_feedback emotion_none five_kinds 80)) /\
  ~ In "Consider adding evidence or examples to strengthen your argument"
       (improvements (generate_argument_feedback emotion_none five_kinds 80)).
Proof.
  apply (excellent_structure_needs_evidence emotion_none five_kinds 80).
  vm_compute. right. right. left. reflexivity.
Defined.

Lemma advanced_analysis_parts_witness :
  exists r,
    advanced_analysis emotion_none topic_none unit sentence_unit
                      cosine_quarter "why" "taxes"
                      [JOther "str"; JDict [("id", "7")];
                       JDict [("content", "we should")]; JDict []]
    = AdvancedOk r /\
    similarity_analysis r = Some [("7", 1 # 4); ("", 1 # 4); ("", 1 # 4)].
Proof.
  destruct (advanced_analysis_parts
              emotion_none topic_none unit sentence_unit cosine_quarter
              "why" "taxes"
              [JOther "str"; JDict [("id", "7")];
               JDict [("content", "we should")]; JDict []])
    as (r & E & _ & _ & _ & _ & _ & S); [reflexivity|].
  exists r. split; [exact E|].
  destruct S as [S _]; [discriminate|]. rewrite S. reflexivity.
Defined.


Lemma emotion_is_the_top_score_witness :
  let r := analyze_argument_emotion emotion_four "we should" in
  confidence r = 7 # 10 /\
  List.length (emotions r) = 3%nat /\
  decreasing snd (emotions r).
Proof.
  destruct (proj1 (emotion_is_the_top_score emotion_four "we should")
                  (fun _ => Ok [("joy", 1 # 10); ("anger", 7 # 10);
                                ("fear", 2 # 10); ("sadness", 7 # 10)])
                  [("joy", 1 # 10); ("anger", 7 # 10);
                   ("fear", 2 # 10); ("sadness", 7 # 10)]
                  eq_refl eq_refl)
    as (_ & _ & L & _ & D & _); [discriminate|].
  cbv zeta. split; [reflexivity|]. split; [exact L | exact D].
Defined.

Lemma dynamics_need_content_everywhere_witness :
  analyze_debate_dynamics emotion_none unit sentence_unit cosine_quarter
                          debate_as_sent
  = Raise (KeyError "content").
Proof.
  apply (proj2 (dynamics_need_content_everywhere
                  emotion_none unit sentence_unit cosine_quarter)
               debate_as_sent).
  reflexivity.
Defined.


Lemma advanced_analysis_reads_last_three_witness :
  advanced_analysis emotion_none topic_none unit sentence_unit cosine_quarter
                    "why" ""
                    [JDict []; JOther "int"; JDict []]
  = AdvancedError "'int' object has no attribute 'get'" /\
  advanced_analysis emotion_none topic_none unit sentence_unit cosine_quarter
                    "why" ""
                    ([JOther "int"] ++ [JDict []; JDict []; JDict []])
  = advanced_analysis emotion_none topic_none unit sentence_unit
                      cosine_quarter "why" ""
                      [JDict []; JDict []; JDict []].
Proof.
  split.
  - apply (proj1 (advanced_analysis_reads_last_three
                    emotion_none topic_none unit sentence_unit cosine_quarter
                    "why" "")
                 [JDict []; JOther "int"; JDict []]
                 [JDict []] [JDict []] "int"); reflexivity.
  - apply (proj2 (advanced_analysis_reads_last_three
                    emotion_none topic_none unit sentence_unit cosine_quarter
                    "why" "")
                 [JOther "int"] [JDict []; JDict []; JDict []]).
    reflexivity.
Defined.

End PropertyRuns.
